(** * TradingView Lite (src/app.py): the analytical core, embedded in Rocq

    The script derives technical indicators, pivot levels and a buy-strength
    meter from a daily OHLCV table.  The table is a pandas DataFrame; its cells
    are IEEE binary64 floats.  The embedding keeps the IEEE special values
    (NaN, the two infinities) and the rules of arithmetic and comparison on
    them, and takes every finite float as the exact rational it denotes:
    rounding of finite results and the sign of zero are outside the model.
    The last part of the file evaluates the Bollinger lines on binary64
    numbers proper, where rounding decides. *)

From Stdlib Require Import String List Bool Arith ZArith QArith Lia Lqa.
Import ListNotations.

Set Implicit Arguments.
Open Scope nat_scope.

(** ** Cells: the values of a float64 column *)

Module Cell.

Inductive cell : Type :=
| NaN : cell
| PInf : cell
| NInf : cell
| Fin : Q -> cell.

Definition Qltb (a b : Q) : bool := negb (Qle_bool b a).

Definition of_Z (z : Z) : cell := Fin (inject_Z z).

(** pandas [isna] / [notna]: only NaN is missing, the infinities are not. *)
Definition isna (c : cell) : bool :=
  match c with NaN => true | _ => false end.

Definition notna (c : cell) : bool := negb (isna c).

Definition is_fin (c : cell) : bool :=
  match c with Fin _ => true | _ => false end.

(** [a < b] on floats: false as soon as one side is NaN. *)
Definition ltb (a b : cell) : bool :=
  match a, b with
  | NaN, _ | _, NaN => false
  | _, NInf => false
  | NInf, _ => true
  | PInf, _ => false
  | Fin _, PInf => true
  | Fin x, Fin y => Qltb x y
  end.

(** [a > b] is [b < a], also on NaN. *)
Definition gtb (a b : cell) : bool := ltb b a.

Definition neg (a : cell) : cell :=
  match a with
  | NaN => NaN
  | PInf => NInf
  | NInf => PInf
  | Fin x => Fin (- x)%Q
  end.

Definition add (a b : cell) : cell :=
  match a, b with
  | NaN, _ | _, NaN => NaN
  | PInf, NInf | NInf, PInf => NaN
  | PInf, _ | _, PInf => PInf
  | NInf, _ | _, NInf => NInf
  | Fin x, Fin y => Fin (x + y)%Q
  end.

Definition sub (a b : cell) : cell := add a (neg b).

(** The sign of a finite rational, as the three cases IEEE separates. *)
Definition Qsgn (x : Q) : comparison := (0 ?= x)%Q.

Definition mul (a b : cell) : cell :=
  match a, b with
  | NaN, _ | _, NaN => NaN
  | PInf, PInf | NInf, NInf => PInf
  | PInf, NInf | NInf, PInf => NInf
  | PInf, Fin y | Fin y, PInf =>
      match Qsgn y with Lt => PInf | Eq => NaN | Gt => NInf end
  | NInf, Fin y | Fin y, NInf =>
      match Qsgn y with Lt => NInf | Eq => NaN | Gt => PInf end
  | Fin x, Fin y => Fin (x * y)%Q
  end.

(** Float division never raises on a pandas Series: a finite non-zero value
    over zero is an infinity, zero over zero and infinity over infinity are
    NaN, a finite value over an infinity is zero. *)
Definition div (a b : cell) : cell :=
  match a, b with
  | NaN, _ | _, NaN => NaN
  | (PInf | NInf), (PInf | NInf) => NaN
  | PInf, Fin y => match Qsgn y with Gt => NInf | _ => PInf end
  | NInf, Fin y => match Qsgn y with Gt => PInf | _ => NInf end
  | Fin _, (PInf | NInf) => Fin 0%Q
  | Fin x, Fin y =>
      match Qsgn y with
      | Eq => match Qsgn x with Lt => PInf | Eq => NaN | Gt => NInf end
      | _ => Fin (x / y)%Q
      end
  end.

End Cell.

Import Cell.

Declare Scope cell_scope.
Delimit Scope cell_scope with cell.
Bind Scope cell_scope with cell.
Infix "+" := Cell.add : cell_scope.
Infix "-" := Cell.sub : cell_scope.
Infix "*" := Cell.mul : cell_scope.
Infix "/" := Cell.div : cell_scope.
Infix "<?" := Cell.ltb : cell_scope.
Infix ">?" := Cell.gtb (at level 70) : cell_scope.

(** ** The price table *)

(** One row of the downloaded table: the index label (a date, here its
    ordinal) and the five value columns. *)
Record Row : Type := mkRow {
  ts : Z;
  Open : cell;
  High : cell;
  Low : cell;
  Close : cell;
  Volume : cell
}.

Definition DataFrame : Type := list Row.

(** [df[name]]: a column, as the list of its cells in row order. *)
Definition column (f : Row -> cell) (df : DataFrame) : list cell := map f df.

(** [s[i]] and [s.iloc[i]] for an index that is in range. *)
Definition at_ (s : list cell) (i : nat) : cell := nth i s NaN.

(** [df.index[i]] *)
Definition index_at (df : DataFrame) (i : nat) : Z :=
  nth i (map ts df) 0%Z.

(** Python's [range(a, b)]. *)
Definition range (a b : nat) : list nat := seq a (b - a).

(** ** Sanitizer (lines 44-50) *)

Definition ohlc_cols : list (Row -> cell) := [Open; High; Low; Close].

(** [data.dropna(subset=ohlc_cols)]: with the default [how='any'] a row goes
    as soon as one of the subset columns is missing in it. *)
Fixpoint dropna (subset : list (Row -> cell)) (data : DataFrame) : DataFrame :=
  match data with
  | [] => []
  | r :: rest =>
      if existsb (fun col => isna (col r)) subset
      then dropna subset rest
      else r :: dropna subset rest
  end.

Definition sanitize (data : DataFrame) : DataFrame := dropna ohlc_cols data.

(** ** Support/Resistance detection (lines 54-62) *)

(** The two generator expressions under [all(...)]. *)
Definition support_test (lows : list cell) (window i : nat) : bool :=
  forallb (fun j => (at_ lows i <? at_ lows (i - j))%cell
                    && (at_ lows i <? at_ lows (i + j))%cell)
          (range 1 window).

Definition resistance_test (highs : list cell) (window i : nat) : bool :=
  forallb (fun j => (at_ highs i >? at_ highs (i - j))%cell
                    && (at_ highs i >? at_ highs (i + j))%cell)
          (range 1 window).

Definition PivotLevels : Type := (list (Z * cell) * list (Z * cell))%type.

(** One turn of the [for i] loop on the two accumulators. *)
Definition pivot_step (df : DataFrame) (window : nat)
    (acc : PivotLevels) (i : nat) : PivotLevels :=
  let highs := column High df in
  let lows := column Low df in
  let '(support, resistance) := acc in
  let support :=
    if support_test lows window i
    then support ++ [(index_at df i, at_ lows i)] else support in
  let resistance :=
    if resistance_test highs window i
    then resistance ++ [(index_at df i, at_ highs i)] else resistance in
  (support, resistance).

Definition find_support_resistance (df : DataFrame) (window : nat)
    : PivotLevels :=
  fold_left (pivot_step df window)
            (range window (length df - window)) ([], []).

(** The loop reaches index [i] and its first (second) test succeeds there:
    this is when [i] is appended to the support (resistance) list. *)
Definition marks_support (df : DataFrame) (window i : nat) : bool :=
  (window <=? i) && (i <? length df - window)
  && support_test (column Low df) window i.

Definition marks_resistance (df : DataFrame) (window i : nat) : bool :=
  (window <=? i) && (i <? length df - window)
  && resistance_test (column High df) window i.

(** ** Series operations of pandas used by the script *)

(** [s.diff()]: the first entry has no predecessor and is NaN. *)
Fixpoint diff_from (prev : cell) (s : list cell) : list cell :=
  match s with
  | [] => []
  | x :: rest => (x - prev)%cell :: diff_from x rest
  end.

Definition diff (s : list cell) : list cell :=
  match s with
  | [] => []
  | x :: rest => NaN :: diff_from x rest
  end.

(** [s.where(cond, other)] and [np.where(cond, s, other)], entry by entry. *)
Definition where_ (cond : cell -> bool) (other : cell) (s : list cell)
    : list cell :=
  map (fun x => if cond x then x else other) s.

(** Entry-wise binary operation on two aligned columns. *)
Fixpoint zip_with (f : cell -> cell -> cell) (a b : list cell) : list cell :=
  match a, b with
  | x :: a', y :: b' => f x y :: zip_with f a' b'
  | _, _ => []
  end.

(** The trailing window of [s.rolling(window=w)] at position [i]: the entries
    at positions [i-w+1 .. i], fewer at the start of the series. *)
Definition window_at (w : nat) (s : list cell) (i : nat) : list cell :=
  skipn (i + 1 - w) (firstn (i + 1) s).

Definition count_notna (xs : list cell) : nat :=
  List.length (filter notna xs).

(** [s.rolling(window=w).agg()]: [min_periods] defaults to the window size, so
    the result is NaN unless the window holds [w] observations that are not
    NaN; the aggregate is taken over those observations. *)
Definition rolling (w : nat) (agg : list cell -> cell) (s : list cell)
    : list cell :=
  map (fun i =>
         let win := window_at w s i in
         if count_notna win <? w then NaN else agg (filter notna win))
      (seq 0 (List.length s)).

Definition of_nat (n : nat) : cell := of_Z (Z.of_nat n).

Definition sum (xs : list cell) : cell := fold_left Cell.add xs (Fin 0%Q).

Definition mean (xs : list cell) : cell :=
  (sum xs / of_nat (List.length xs))%cell.

Definition rolling_mean (w : nat) (s : list cell) : list cell :=
  rolling w mean s.

(** ** SMA (lines 69-70) *)

Definition SMA20 (data : DataFrame) : list cell :=
  rolling_mean 20 (column Close data).

Definition SMA50 (data : DataFrame) : list cell :=
  rolling_mean 50 (column Close data).

(** ** RSI (lines 73-79, and again 288-294) *)

Definition c0 : cell := of_Z 0.
Definition c1 : cell := of_Z 1.
Definition c100 : cell := of_Z 100.

Definition RSI_delta (data : DataFrame) : list cell := diff (column Close data).

Definition RSI_gain (data : DataFrame) : list cell :=
  where_ (fun d => d >? c0)%cell c0 (RSI_delta data).

Definition RSI_loss (data : DataFrame) : list cell :=
  map Cell.neg (where_ (fun d => d <? c0)%cell c0 (RSI_delta data)).

Definition avg_gain (data : DataFrame) : list cell :=
  rolling_mean 14 (RSI_gain data).

Definition avg_loss (data : DataFrame) : list cell :=
  rolling_mean 14 (RSI_loss data).

Definition rs (data : DataFrame) : list cell :=
  zip_with Cell.div (avg_gain data) (avg_loss data).

(** [100 - (100 / (1 + rs))] *)
Definition rsi_of_rs (r : cell) : cell := (c100 - (c100 / (c1 + r)))%cell.

Definition RSI (data : DataFrame) : list cell := map rsi_of_rs (rs data).

(** The recomputation at lines 288-294 builds gain and loss with [np.where]
    and wraps them in fresh Series; [RSI_np] is the series of the values of
    the right-hand side of line 294, by position. *)
Definition RSI_gain_np (data : DataFrame) : list cell :=
  map (fun d => if (d >? c0)%cell then d else c0) (RSI_delta data).

Definition RSI_loss_np (data : DataFrame) : list cell :=
  map (fun d => if (d <? c0)%cell then Cell.neg d else c0) (RSI_delta data).

Definition RSI_np (data : DataFrame) : list cell :=
  map rsi_of_rs
      (zip_with Cell.div (rolling_mean 14 (RSI_gain_np data))
                         (rolling_mean 14 (RSI_loss_np data))).

(** ** Bollinger Bands (lines 275-278) *)

Section Bollinger.

(** The square root of the float library on finite non-negative values. *)
Variable sqrtQ : Q -> Q.

Definition sqrt (c : cell) : cell :=
  match c with
  | NaN | NInf => NaN
  | PInf => PInf
  | Fin x => if Qltb x 0%Q then NaN else Fin (sqrtQ x)
  end.

(** Sum of squared deviations from [m]. *)
Definition sq_dev (m : cell) (xs : list cell) : cell :=
  sum (map (fun x => ((x - m) * (x - m))%cell) xs).

(** [rolling(...).std()]: sample standard deviation, [ddof=1]. *)
Definition std (xs : list cell) : cell :=
  sqrt (sq_dev (mean xs) xs / of_nat (List.length xs - 1))%cell.

Definition BB_std (data : DataFrame) : list cell :=
  rolling 20 std (column Close data).

Definition c2 : cell := of_Z 2.

Definition BB_upper (data : DataFrame) : list cell :=
  zip_with Cell.add (SMA20 data) (map (Cell.mul c2) (BB_std data)).

Definition BB_lower (data : DataFrame) : list cell :=
  zip_with Cell.sub (SMA20 data) (map (Cell.mul c2) (BB_std data)).

End Bollinger.

(** ** Buy Strength Meter (lines 146-174) *)

(** [s.iloc[-1]]: raises IndexError on an empty series. *)
Definition iloc_last (s : list cell) : option cell :=
  match rev s with
  | [] => None
  | x :: _ => Some x
  end.

(** [s.dropna()] on a Series. *)
Definition dropna_series (s : list cell) : list cell := filter notna s.

(** Lines 147-150. *)
Definition latest_rsi_of (rsi : list cell) : cell :=
  match dropna_series rsi with
  | [] => of_Z 50
  | _ :: _ =>
      match iloc_last (dropna_series rsi) with
      | Some v => v
      | None => of_Z 50
      end
  end.

(** Lines 153-156: the bare [except] takes over only when an [iloc[-1]]
    raises. *)
Definition sma_diff_of (sma20 sma50 : list cell) : cell :=
  match iloc_last sma20, iloc_last sma50 with
  | Some a, Some b => (a - b)%cell
  | _, _ => of_Z 0
  end.

(** Lines 158-162. *)
Definition score_of (latest_rsi sma_diff : cell) : nat :=
  let score := 0 in
  let score :=
    if (latest_rsi <? of_Z 30)%cell then score + 2
    else if (latest_rsi <? of_Z 50)%cell then score + 1
    else score in
  let score :=
    if (sma_diff >? of_Z 0)%cell then score + 2
    else if (sma_diff >? of_Z (-5))%cell then score + 1
    else score in
  score.

Inductive Meter : Type :=
| StrongBuy | Buy | Hold | WeakHold | Sell.

(** Lines 164-172. *)
Definition meter_of (score : nat) : Meter :=
  if 4 <=? score then StrongBuy
  else if 3 <=? score then Buy
  else if score =? 2 then Hold
  else if score =? 1 then WeakHold
  else Sell.

(** The text shown for each meter value, without its leading pictogram. *)
Definition meter_text (m : Meter) : string :=
  match m with
  | StrongBuy => "Strong Buy"
  | Buy => "Buy"
  | Hold => "Hold"
  | WeakHold => "Weak Hold"
  | Sell => "Sell"
  end.

Definition latest_rsi (data : DataFrame) : cell := latest_rsi_of (RSI data).

Definition sma_diff (data : DataFrame) : cell :=
  sma_diff_of (SMA20 data) (SMA50 data).

Definition score (data : DataFrame) : nat :=
  score_of (latest_rsi data) (sma_diff data).

Definition meter (data : DataFrame) : Meter := meter_of (score data).

(** * Properties *)

(** ** Comparison of cells *)

Lemma Qltb_lt (a b : Q) : Qltb a b = true <-> (a < b)%Q.
Proof.
  unfold Qltb. rewrite negb_true_iff. split; intro H.
  - apply Qnot_le_lt. intro L. apply Qle_bool_iff in L. congruence.
  - destruct (Qle_bool b a) eqn:E; [|reflexivity].
    apply Qle_bool_iff in E. exfalso. exact (Qlt_not_le _ _ H E).
Qed.

Lemma ltb_asym (a b : cell) : (a <? b)%cell = true -> (b <? a)%cell = false.
Proof.
  destruct a as [| | |x], b as [| | |y]; simpl; try congruence.
  intro H. apply Qltb_lt in H.
  destruct (Qltb y x) eqn:E; [|reflexivity].
  apply Qltb_lt in E. exfalso. exact (Qlt_irrefl _ (Qlt_trans _ _ _ H E)).
Qed.

Lemma ltb_irrefl (a : cell) : (a <? a)%cell = false.
Proof.
  destruct (a <? a)%cell eqn:E; [|reflexivity].
  pose proof (ltb_asym _ _ E). congruence.
Qed.

(** ** Sanitizer *)

(** [subseq xs ys]: [xs] is [ys] with some entries left out, the others in
    their order. *)
Inductive subseq {A : Type} : list A -> list A -> Prop :=
| subseq_nil : subseq [] []
| subseq_skip : forall x xs ys, subseq xs ys -> subseq xs (x :: ys)
| subseq_keep : forall x xs ys, subseq xs ys -> subseq (x :: xs) (x :: ys).

(** A row is complete when none of open/high/low/close is missing. *)
Definition ohlc_present (r : Row) : bool :=
  notna (Open r) && notna (High r) && notna (Low r) && notna (Close r).

Lemma ohlc_missing_iff (r : Row) :
  existsb (fun col => isna (col r)) ohlc_cols = negb (ohlc_present r).
Proof.
  unfold ohlc_present, notna. simpl.
  destruct (isna (Open r)), (isna (High r)), (isna (Low r)), (isna (Close r));
    reflexivity.
Qed.

Lemma sanitize_filter (data : DataFrame) :
  sanitize data = filter ohlc_present data.
Proof.
  unfold sanitize.
  induction data as [|r rest IH]; cbn [dropna filter]; [reflexivity|].
  rewrite ohlc_missing_iff, IH.
  destruct (ohlc_present r); reflexivity.
Qed.

Lemma filter_subseq {A : Type} (p : A -> bool) (l : list A) :
  subseq (filter p l) l.
Proof.
  induction l as [|x l IH]; simpl; [constructor|].
  destruct (p x); constructor; exact IH.
Qed.

(** Replacing the volume of a row, whatever it was. *)
Definition with_volume (v : cell) (r : Row) : Row :=
  mkRow (ts r) (Open r) (High r) (Low r) (Close r) v.

(** C10: the sanitizer keeps exactly the rows whose open, high, low and close
    are all present, whole and in their original order: the result is the
    input filtered by that test (a sub-sequence of the input rows), a row is
    in the result exactly when it is an input row with the four prices
    present, and the volume plays no part (overwriting every volume, also with
    NaN, commutes with sanitizing). *)
Theorem sanitize_removes_exactly_incomplete_rows (data : DataFrame) :
  sanitize data = filter ohlc_present data
  /\ subseq (sanitize data) data
  /\ (forall r, In r (sanitize data) <->
        In r data /\ isna (Open r) = false /\ isna (High r) = false
        /\ isna (Low r) = false /\ isna (Close r) = false)
  /\ (forall v, sanitize (map (with_volume v) data)
                = map (with_volume v) (sanitize data)).
Proof.
  split; [apply sanitize_filter|].
  split; [rewrite sanitize_filter; apply filter_subseq|].
  split.
  - intro r. rewrite sanitize_filter, filter_In.
    unfold ohlc_present, notna.
    rewrite !andb_true_iff, !negb_true_iff. tauto.
  - intro v. rewrite !sanitize_filter.
    induction data as [|r rest IH]; simpl; [reflexivity|].
    rewrite IH.
    replace (ohlc_present (with_volume v r)) with (ohlc_present r)
      by reflexivity.
    destruct (ohlc_present r); reflexivity.
Qed.

(** ** Pivot detector *)

Section Pivots.

Variable df : DataFrame.
Variable window : nat.

Definition support_level (i : nat) : Z * cell :=
  (index_at df i, at_ (column Low df) i).

Definition resistance_level (i : nat) : Z * cell :=
  (index_at df i, at_ (column High df) i).

Lemma pivot_loop (l : list nat) (s r : list (Z * cell)) :
  fold_left (pivot_step df window) l (s, r)
  = (s ++ map support_level
            (filter (support_test (column Low df) window) l),
     r ++ map resistance_level
            (filter (resistance_test (column High df) window) l)).
Proof.
  revert s r.
  induction l as [|i l IH]; intros s r; simpl.
  - now rewrite !app_nil_r.
  - rewrite IH.
    destruct (support_test (column Low df) window i),
             (resistance_test (column High df) window i);
      simpl; rewrite <- ?app_assoc; reflexivity.
Qed.

(** What the detector returns: the levels of the indices the loop visits and
    the tests accept, in index order. *)
Lemma find_support_resistance_levels :
  find_support_resistance df window
  = (map support_level
         (filter (support_test (column Low df) window)
                 (range window (List.length df - window))),
     map resistance_level
         (filter (resistance_test (column High df) window)
                 (range window (List.length df - window)))).
Proof.
  unfold find_support_resistance. now rewrite pivot_loop.
Qed.

Lemma in_range (a b i : nat) : In i (range a b) <-> a <= i < b.
Proof. unfold range. rewrite in_seq. lia. Qed.

Lemma marks_support_visited (i : nat) :
  marks_support df window i = true <->
  In i (filter (support_test (column Low df) window)
               (range window (List.length df - window))).
Proof.
  unfold marks_support.
  rewrite filter_In, in_range, !andb_true_iff, Nat.leb_le, Nat.ltb_lt.
  tauto.
Qed.

Lemma marks_resistance_visited (i : nat) :
  marks_resistance df window i = true <->
  In i (filter (resistance_test (column High df) window)
               (range window (List.length df - window))).
Proof.
  unfold marks_resistance.
  rewrite filter_In, in_range, !andb_true_iff, Nat.leb_le, Nat.ltb_lt.
  tauto.
Qed.

(** The test the code runs looks at the offsets [1 .. window-1]. *)
Lemma support_test_offsets (s : list cell) (i : nat) :
  support_test s window i = true <->
  forall j, 1 <= j < window ->
    (at_ s i <? at_ s (i - j))%cell = true
    /\ (at_ s i <? at_ s (i + j))%cell = true.
Proof.
  unfold support_test. rewrite forallb_forall.
  split; intros H j Hj.
  - apply andb_true_iff, H, in_range; lia.
  - apply andb_true_iff, H, in_range, Hj.
Qed.

Lemma resistance_test_offsets (s : list cell) (i : nat) :
  resistance_test s window i = true <->
  forall j, 1 <= j < window ->
    (at_ s i >? at_ s (i - j))%cell = true
    /\ (at_ s i >? at_ s (i + j))%cell = true.
Proof.
  unfold resistance_test. rewrite forallb_forall.
  split; intros H j Hj.
  - apply andb_true_iff, H, in_range; lia.
  - apply andb_true_iff, H, in_range, Hj.
Qed.

End Pivots.

(** The pivot tests as section 4.3 of the specification words them: strict
    extremum against every offset [j] in [1 .. w] on both sides. *)
Definition is_support_spec (lows : list cell) (w i : nat) : Prop :=
  forall j, 1 <= j <= w ->
    (at_ lows i <? at_ lows (i - j))%cell = true
    /\ (at_ lows i <? at_ lows (i + j))%cell = true.

Definition is_resistance_spec (highs : list cell) (w i : nat) : Prop :=
  forall j, 1 <= j <= w ->
    (at_ highs i >? at_ highs (i - j))%cell = true
    /\ (at_ highs i >? at_ highs (i + j))%cell = true.

(** Sample tables: a bar from its high and low (open at the low, close at the
    high), dated by its position. *)
Definition bar (t : nat) (hl : Z * Z) : Row :=
  mkRow (Z.of_nat t) (of_Z (snd hl)) (of_Z (fst hl)) (of_Z (snd hl))
        (of_Z (fst hl)) (of_Z 1000).

Fixpoint bars_from (t : nat) (hls : list (Z * Z)) : DataFrame :=
  match hls with
  | [] => []
  | hl :: rest => bar t hl :: bars_from (S t) rest
  end.

Definition bars (hls : list (Z * Z)) : DataFrame := bars_from 0 hls.

(** 21 bars with highs at 9; the lows are 5 except 1 at position 10 and 0 at
    position 0, ten rows before it. *)
Definition dip_after_lower_low : DataFrame :=
  bars ((9, 0) :: repeat (9, 5) 9 ++ (9, 1) :: repeat (9, 5) 10)%Z.

(** C1 (the code at the failing input): with the default window 10 the
    detector reports position 10 as a support level although the low ten rows
    earlier is lower, so the position is not a strict minimum over the
    offsets 1..10; the code compares against the offsets 1..9 only. *)
Theorem support_marked_against_offset_window :
  find_support_resistance dip_after_lower_low 10 = ([(10%Z, of_Z 1)], [])
  /\ marks_support dip_after_lower_low 10 10 = true
  /\ (at_ (column Low dip_after_lower_low) 10
        <? at_ (column Low dip_after_lower_low) (10 - 10))%cell = false
  /\ ~ is_support_spec (column Low dip_after_lower_low) 10 10.
Proof.
  split; [vm_compute; reflexivity|].
  split; [vm_compute; reflexivity|].
  split; [vm_compute; reflexivity|].
  intro H. destruct (H 10) as [H1 _]; [lia|].
  vm_compute in H1. discriminate.
Qed.

(** Five bars; the middle one reaches both below and above its neighbours. *)
Definition outside_bar : DataFrame :=
  bars [(6, 5); (6, 5); (10, 1); (6, 5); (6, 5)]%Z.

(** C4 (counter-example): with window 2 the middle row of [outside_bar] is
    returned both as a support and as a resistance level; it is a strict
    minimum of the lows and a strict maximum of the highs over both offsets
    1 and 2 as well. *)
Lemma outside_bar_is_support_and_resistance :
  find_support_resistance outside_bar 2
    = ([(2%Z, of_Z 1)], [(2%Z, of_Z 10)])
  /\ marks_support outside_bar 2 2 = true
  /\ marks_resistance outside_bar 2 2 = true
  /\ is_support_spec (column Low outside_bar) 2 2
  /\ is_resistance_spec (column High outside_bar) 2 2.
Proof.
  split; [vm_compute; reflexivity|].
  split; [vm_compute; reflexivity|].
  split; [vm_compute; reflexivity|].
  split; intros j Hj;
    (assert (j = 1 \/ j = 2) as [-> | ->] by lia);
    split; vm_compute; reflexivity.
Qed.

(** C4 (amended): for a window of at least 2, an index returned both as
    support and as resistance is a bar that reaches strictly below the lows
    and strictly above the highs of the rows next to it; so the two marks
    never meet on a table whose high and low columns coincide. *)
Theorem support_and_resistance_only_on_outside_bar
    (df : DataFrame) (window i : nat) :
  2 <= window ->
  marks_support df window i = true ->
  marks_resistance df window i = true ->
  ((at_ (column Low df) i <? at_ (column Low df) (i - 1))%cell = true
   /\ (at_ (column Low df) i <? at_ (column Low df) (i + 1))%cell = true
   /\ (at_ (column High df) i >? at_ (column High df) (i - 1))%cell = true
   /\ (at_ (column High df) i >? at_ (column High df) (i + 1))%cell = true)
  /\ column High df <> column Low df.
Proof.
  intros Hw Hs Hr.
  unfold marks_support in Hs. unfold marks_resistance in Hr.
  apply andb_true_iff in Hs as [_ Hs]. apply andb_true_iff in Hr as [_ Hr].
  rewrite support_test_offsets in Hs. rewrite resistance_test_offsets in Hr.
  destruct (Hs 1) as [Hs1 Hs2]; [lia|].
  destruct (Hr 1) as [Hr1 Hr2]; [lia|].
  split; [repeat split; assumption|].
  intro E. rewrite E in Hr1. unfold Cell.gtb in Hr1.
  apply ltb_asym in Hs1. congruence.
Qed.

Lemma support_and_resistance_only_on_outside_bar_witness :
  ((at_ (column Low outside_bar) 2
      <? at_ (column Low outside_bar) (2 - 1))%cell = true
   /\ (at_ (column Low outside_bar) 2
      <? at_ (column Low outside_bar) (2 + 1))%cell = true
   /\ (at_ (column High outside_bar) 2
      >? at_ (column High outside_bar) (2 - 1))%cell = true
   /\ (at_ (column High outside_bar) 2
      >? at_ (column High outside_bar) (2 + 1))%cell = true)
  /\ column High outside_bar <> column Low outside_bar.
Proof.
  apply (@support_and_resistance_only_on_outside_bar outside_bar 2 2).
  - lia.
  - vm_compute; reflexivity.
  - vm_compute; reflexivity.
Defined.

(** ** Buy-strength meter *)

Lemma iloc_last_snoc (s : list cell) (v : cell) :
  iloc_last (s ++ [v]) = Some v.
Proof. unfold iloc_last. rewrite rev_app_distr. reflexivity. Qed.

(** Either a column has no defined entry, or it splits at its last defined
    entry. *)
Lemma last_defined_split (s : list cell) :
  (Forall (fun x => isna x = true) s /\ dropna_series s = [])
  \/ (exists pre v suf,
        s = pre ++ v :: suf /\ isna v = false
        /\ Forall (fun x => isna x = true) suf
        /\ dropna_series s = dropna_series pre ++ [v]).
Proof.
  unfold dropna_series.
  induction s as [|x s IH] using rev_ind.
  - left. split; [constructor|reflexivity].
  - rewrite filter_app. simpl. unfold notna at 2 4.
    destruct (isna x) eqn:Ex; simpl.
    + rewrite app_nil_r.
      destruct IH as [[Hall Hd] | (pre & v & suf & Hs & Hv & Hsuf & Hd)].
      * left. split; [|exact Hd].
        apply Forall_app. split; [exact Hall|]. constructor; [exact Ex|constructor].
      * right. exists pre, v, (suf ++ [x]).
        split; [rewrite Hs, <- app_assoc; reflexivity|].
        split; [exact Hv|]. split; [|exact Hd].
        apply Forall_app. split; [exact Hsuf|]. constructor; [exact Ex|constructor].
    + right. exists s, x, []. repeat split; auto.
Qed.

(** Fourteen rising closes, then fourteen flat ones: the last window holds no
    gain and no loss. *)
Definition rise_then_flat : DataFrame :=
  bars (map (fun c => (c, c)) [1; 2; 3; 4; 5; 6; 7; 8; 9; 10; 11; 12; 13; 14]
        ++ repeat (14, 14) 14)%Z.

(** C9: the RSI handed to the scorer is the last entry of the RSI column that
    is not NaN, wherever it stands, and 50 only when the column has no such
    entry.  On [rise_then_flat] the final row has no RSI and the value used,
    100, is that of the row before it. *)
Theorem latest_rsi_is_last_defined_entry :
  (forall rsi : list cell,
     (Forall (fun x => isna x = true) rsi /\ latest_rsi_of rsi = of_Z 50)
     \/ (exists pre v suf,
           rsi = pre ++ v :: suf /\ isna v = false
           /\ Forall (fun x => isna x = true) suf
           /\ latest_rsi_of rsi = v))
  /\ (forall data, score data
                   = score_of (latest_rsi_of (RSI data)) (sma_diff data))
  /\ (at_ (RSI rise_then_flat) 27 = NaN
      /\ at_ (RSI rise_then_flat) 26 = of_Z 100
      /\ latest_rsi rise_then_flat = of_Z 100).
Proof.
  split; [|split; [reflexivity|]].
  - intro rsi. unfold latest_rsi_of.
    destruct (last_defined_split rsi)
      as [[Hall Hd] | (pre & v & suf & Hs & Hv & Hsuf & Hd)].
    + left. rewrite Hd. split; [exact Hall|reflexivity].
    + right. exists pre, v, suf. repeat split; try assumption.
      rewrite Hd, iloc_last_snoc.
      destruct (dropna_series pre ++ [v]) eqn:E; [|reflexivity].
      destruct (dropna_series pre); discriminate.
  - repeat split; vm_compute; reflexivity.
Qed.

(** NaN goes through the subtraction: no [iloc[-1]] raises on a column that
    has a row, so the [except] branch is not taken. *)
Lemma sma_diff_of_nan (sma20 sma50 : list cell) (a b : cell) :
  iloc_last sma20 = Some a -> iloc_last sma50 = Some b ->
  isna a = true \/ isna b = true ->
  sma_diff_of sma20 sma50 = NaN.
Proof.
  intros Ha Hb H. unfold sma_diff_of. rewrite Ha, Hb.
  destruct a, b; simpl in *; destruct H; try discriminate; reflexivity.
Qed.

Definition single_row : DataFrame := bars [(10, 9)%Z].

(** Twenty rising closes: SMA20 has its first value, SMA50 has none. *)
Definition twenty_rising : DataFrame :=
  bars (map (fun c => (c, c))
            [1; 2; 3; 4; 5; 6; 7; 8; 9; 10;
             11; 12; 13; 14; 15; 16; 17; 18; 19; 20])%Z.

(** C5 (the code at the failing inputs): on a one-row table both averages end
    in NaN, on twenty rows SMA50 does; in either case the SMA difference of
    the scorer is NaN, not 0, and the SMA term adds nothing to the score
    where a difference of 0 would add 1. *)
Theorem sma_diff_is_nan_when_an_average_is_undefined :
  (iloc_last (SMA20 single_row) = Some NaN
   /\ iloc_last (SMA50 single_row) = Some NaN
   /\ sma_diff single_row = NaN
   /\ score single_row = 0
   /\ score_of (latest_rsi single_row) (of_Z 0) = 1)
  /\ (iloc_last (SMA20 twenty_rising) = Some (Fin (210 # 20))
      /\ iloc_last (SMA50 twenty_rising) = Some NaN
      /\ sma_diff twenty_rising = NaN
      /\ score twenty_rising = 0
      /\ score_of (latest_rsi twenty_rising) (of_Z 0) = 1).
Proof. repeat split; vm_compute; reflexivity. Qed.

(** C2 (counter-example): on the one-row table the score is 0 and the meter
    says Sell; and the two fallback values by themselves, RSI 50 and SMA
    difference 0, score 1 (Weak Hold), since 50 is not below 50. *)
Lemma single_row_scores_zero :
  score single_row = 0 /\ meter single_row = Sell
  /\ meter_text (meter single_row) = "Sell"%string
  /\ score_of (of_Z 50) (of_Z 0) = 1
  /\ meter_of (score_of (of_Z 50) (of_Z 0)) = WeakHold
  /\ ~ (score single_row = 2 /\ meter single_row = Hold).
Proof.
  repeat split; try (vm_compute; reflexivity).
  intros [H _]. vm_compute in H. discriminate.
Qed.

(** C2 (amended): on a table of one row the rolling indicators (SMA20, SMA50,
    RSI, the Bollinger columns) are all NaN and the scorer takes the RSI
    fallback 50; 50 is not below 50, so the RSI term adds nothing and the
    score is the SMA term alone: 2 when the SMA difference is above 0, 1 when
    it is above -5, 0 otherwise. *)
Theorem single_row_score_is_sma_term (sqrtQ : Q -> Q) (r : Row) :
  SMA20 [r] = [NaN] /\ SMA50 [r] = [NaN] /\ RSI [r] = [NaN]
  /\ BB_std sqrtQ [r] = [NaN]
  /\ BB_upper sqrtQ [r] = [NaN] /\ BB_lower sqrtQ [r] = [NaN]
  /\ latest_rsi [r] = of_Z 50
  /\ (forall d : cell,
        score_of (latest_rsi [r]) d
        = if (d >? of_Z 0)%cell then 2
          else if (d >? of_Z (-5))%cell then 1 else 0)
  /\ score [r]
     = (if (sma_diff [r] >? of_Z 0)%cell then 2
        else if (sma_diff [r] >? of_Z (-5))%cell then 1 else 0).
Proof.
  assert (H20 : SMA20 [r] = [NaN]) by (destruct r as [t o h l [| | |c] v]; reflexivity).
  assert (H50 : SMA50 [r] = [NaN]) by (destruct r as [t o h l [| | |c] v]; reflexivity).
  assert (Hstd : BB_std sqrtQ [r] = [NaN]) by (destruct r as [t o h l [| | |c] v]; reflexivity).
  assert (Hrsi : RSI [r] = [NaN]) by reflexivity.
  assert (Hl : latest_rsi [r] = of_Z 50) by reflexivity.
  assert (Hterm : forall d : cell,
            score_of (latest_rsi [r]) d
            = if (d >? of_Z 0)%cell then 2
              else if (d >? of_Z (-5))%cell then 1 else 0).
  { intro d. rewrite Hl. unfold score_of.
    replace (of_Z 50 <? of_Z 30)%cell with false by reflexivity.
    replace (of_Z 50 <? of_Z 50)%cell with false by reflexivity.
    destruct (d >? of_Z 0)%cell; [reflexivity|].
    destruct (d >? of_Z (-5))%cell; reflexivity. }
  split; [exact H20|]. split; [exact H50|]. split; [exact Hrsi|].
  split; [exact Hstd|].
  split; [unfold BB_upper; rewrite H20, Hstd; reflexivity|].
  split; [unfold BB_lower; rewrite H20, Hstd; reflexivity|].
  split; [exact Hl|].
  split; [exact Hterm|].
  unfold score. apply Hterm.
Qed.

(** ** Rolling windows *)

Lemma skipn_firstn_seq (s : list cell) (a b : nat) :
  b <= List.length s ->
  skipn a (firstn b s) = map (at_ s) (seq a (b - a)).
Proof.
  unfold at_. revert a b.
  induction s as [|x s IH]; intros a b Hb; simpl in Hb.
  - replace b with 0 by lia. destruct a; reflexivity.
  - destruct b as [|b]; [destruct a; reflexivity|].
    destruct a as [|a]; simpl.
    + f_equal. rewrite <- seq_shift, map_map. simpl.
      specialize (IH 0 b). rewrite Nat.sub_0_r in IH.
      simpl in IH. apply IH. lia.
    + rewrite <- seq_shift, map_map. simpl. apply IH. lia.
Qed.

(** The window at [i] is the run of entries at positions [i+1-w .. i]. *)
Lemma window_at_seq (w : nat) (s : list cell) (i : nat) :
  i < List.length s ->
  window_at w s i = map (at_ s) (range (i + 1 - w) (i + 1)).
Proof.
  intro Hi. unfold window_at, range. apply skipn_firstn_seq. lia.
Qed.

Lemma window_at_length (w : nat) (s : list cell) (i : nat) :
  i < List.length s ->
  List.length (window_at w s i) = Nat.min w (i + 1).
Proof.
  intro Hi. rewrite window_at_seq by exact Hi.
  unfold range. rewrite length_map, length_seq. lia.
Qed.

Lemma window_at_Forall (P : cell -> Prop) (w : nat) (s : list cell) (i : nat) :
  Forall P s -> Forall P (window_at w s i).
Proof.
  intro H. unfold window_at.
  apply Forall_forall. intros x Hx.
  apply (proj1 (Forall_forall P s) H).
  rewrite <- (firstn_skipn (i + 1) s). apply in_or_app. left.
  rewrite <- (firstn_skipn (i + 1 - w) (firstn (i + 1) s)).
  apply in_or_app. right. exact Hx.
Qed.

Lemma rolling_length (w : nat) (agg : list cell -> cell) (s : list cell) :
  List.length (rolling w agg s) = List.length s.
Proof. unfold rolling. now rewrite length_map, length_seq. Qed.

Lemma at_map_seq (f : nat -> cell) (n i : nat) :
  i < n -> at_ (map f (seq 0 n)) i = f i.
Proof.
  intro Hi. unfold at_.
  rewrite (nth_indep _ NaN (f 0)) by (rewrite length_map, length_seq; lia).
  rewrite map_nth, seq_nth by lia. reflexivity.
Qed.

Lemma at_rolling (w : nat) (agg : list cell -> cell) (s : list cell) (i : nat) :
  i < List.length s ->
  at_ (rolling w agg s) i
  = if count_notna (window_at w s i) <? w then NaN
    else agg (filter notna (window_at w s i)).
Proof. intro Hi. unfold rolling. now rewrite at_map_seq. Qed.

Lemma at_out_of_range (s : list cell) (i : nat) :
  List.length s <= i -> at_ s i = NaN.
Proof. intro H. unfold at_. now apply nth_overflow. Qed.

Lemma filter_notna_id (xs : list cell) :
  Forall (fun x => isna x = false) xs -> filter notna xs = xs.
Proof.
  induction 1 as [|x xs Hx _ IH]; simpl; [reflexivity|].
  unfold notna at 1. rewrite Hx. simpl. now rewrite IH.
Qed.

(** On a column without NaN the rolling aggregate starts at position [w-1]
    and takes the whole window. *)
Lemma at_rolling_notna (w : nat) (agg : list cell -> cell) (s : list cell)
    (i : nat) :
  Forall (fun x => isna x = false) s -> i < List.length s ->
  at_ (rolling w agg s) i
  = if i + 1 <? w then NaN else agg (window_at w s i).
Proof.
  intros Hs Hi. rewrite at_rolling by exact Hi.
  unfold count_notna.
  rewrite filter_notna_id by (apply window_at_Forall; exact Hs).
  rewrite window_at_length by exact Hi.
  destruct (i + 1 <? w) eqn:E.
  - apply Nat.ltb_lt in E.
    replace (Nat.min w (i + 1) <? w) with true
      by (symmetry; apply Nat.ltb_lt; lia).
    reflexivity.
  - apply Nat.ltb_ge in E.
    replace (Nat.min w (i + 1) <? w) with false
      by (symmetry; apply Nat.ltb_ge; lia).
    reflexivity.
Qed.

Lemma zip_with_length (f : cell -> cell -> cell) (a b : list cell) :
  List.length a = List.length b ->
  List.length (zip_with f a b) = List.length a.
Proof.
  revert b. induction a as [|x a IH]; intros [|y b] H; simpl in *;
    try discriminate; [reflexivity|].
  f_equal. apply IH. lia.
Qed.

Lemma at_zip_with (f : cell -> cell -> cell) (a b : list cell) (i : nat) :
  List.length a = List.length b -> i < List.length a ->
  at_ (zip_with f a b) i = f (at_ a i) (at_ b i).
Proof.
  unfold at_. revert b i.
  induction a as [|x a IH]; intros [|y b] i H Hi; simpl in *;
    try discriminate; try lia.
  destruct i as [|i]; [reflexivity|]. apply IH; lia.
Qed.

Lemma at_map (f : cell -> cell) (s : list cell) (i : nat) :
  i < List.length s -> at_ (map f s) i = f (at_ s i).
Proof.
  intro Hi. unfold at_.
  rewrite (nth_indep _ NaN (f NaN)) by (rewrite length_map; exact Hi).
  apply map_nth.
Qed.

(** ** RSI *)

(** Gains, losses and their averages are non-negative numbers or [+inf]. *)
Definition nonneg (c : cell) : Prop :=
  match c with
  | Fin x => (0 <= x)%Q
  | PInf => True
  | _ => False
  end.

Lemma Qsgn_pos (y : Q) : (0 < y)%Q -> Qsgn y = Lt.
Proof. intro H. unfold Qsgn. now apply Qlt_alt. Qed.

Lemma Qsgn_zero (y : Q) : (y == 0)%Q -> Qsgn y = Eq.
Proof. intro H. unfold Qsgn. apply Qeq_alt. now symmetry. Qed.

Lemma of_nat_pos (n : nat) : 0 < n -> (0 < inject_Z (Z.of_nat n))%Q.
Proof.
  intro H. change 0%Q with (inject_Z 0). rewrite <- Zlt_Qlt. lia.
Qed.

Lemma nonneg_notna (c : cell) : nonneg c -> isna c = false.
Proof. destruct c; simpl; tauto. Qed.

Lemma add_nonneg (a b : cell) : nonneg a -> nonneg b -> nonneg (a + b)%cell.
Proof.
  destruct a as [| | |x], b as [| | |y]; simpl; try tauto.
  intros Hx Hy. lra.
Qed.

Lemma sum_nonneg (xs : list cell) : Forall nonneg xs -> nonneg (sum xs).
Proof.
  unfold sum. assert (H0 : nonneg (Fin 0)) by (simpl; lra).
  revert H0. generalize (Fin 0).
  induction xs as [|x xs IH]; intros acc Hacc Hxs; simpl; [exact Hacc|].
  inversion Hxs; subst. apply IH; [apply add_nonneg|]; assumption.
Qed.

Lemma div_nonneg_pos (a : cell) (y : Q) :
  nonneg a -> (0 < y)%Q -> nonneg (a / Fin y)%cell.
Proof.
  intros Ha Hy. destruct a as [| | |x]; simpl in *; try tauto.
  - now rewrite (Qsgn_pos Hy).
  - rewrite (Qsgn_pos Hy). simpl.
    apply Qle_shift_div_l; [exact Hy|]. lra.
Qed.

Lemma mean_nonneg (xs : list cell) :
  Forall nonneg xs -> 0 < List.length xs -> nonneg (mean xs).
Proof.
  intros H Hlen. unfold mean, of_nat, of_Z.
  apply div_nonneg_pos; [apply sum_nonneg; exact H|].
  apply of_nat_pos; exact Hlen.
Qed.

Lemma Forall_filter (P : cell -> Prop) (p : cell -> bool) (xs : list cell) :
  Forall P xs -> Forall P (filter p xs).
Proof.
  intro H. apply Forall_forall. intros x Hx.
  apply filter_In in Hx as [Hx _].
  exact (proj1 (Forall_forall P xs) H x Hx).
Qed.

Lemma rolling_mean_nonneg (w : nat) (s : list cell) :
  0 < w -> Forall nonneg s ->
  Forall (fun v => v = NaN \/ nonneg v) (rolling_mean w s).
Proof.
  intros Hw Hs. unfold rolling_mean, rolling.
  apply Forall_forall. intros v Hv.
  apply in_map_iff in Hv as (i & <- & _).
  destruct (count_notna (window_at w s i) <? w) eqn:E; [now left|right].
  apply Nat.ltb_ge in E. unfold count_notna in E.
  apply mean_nonneg; [|lia].
  apply Forall_filter, window_at_Forall, Hs.
Qed.

Lemma zip_with_Forall (P Q R : cell -> Prop) (f : cell -> cell -> cell)
    (a b : list cell) :
  (forall x y, P x -> Q y -> R (f x y)) ->
  Forall P a -> Forall Q b -> Forall R (zip_with f a b).
Proof.
  intros HR Ha. revert b.
  induction Ha as [|x a Hx _ IH]; intros b Hb; simpl; [constructor|].
  destruct Hb as [|y b Hy Hb]; constructor; auto.
Qed.

(** The constants of the script as rational literals. *)
Ltac qconst :=
  change (inject_Z 0) with 0%Q in *;
  change (inject_Z 1) with 1%Q in *;
  change (inject_Z 100) with 100%Q in *.

Lemma gain_entry_nonneg (d : cell) :
  nonneg (if (d >? c0)%cell then d else c0).
Proof.
  destruct d as [| | |x]; simpl; qconst; try lra; try exact I.
  destruct (Qltb 0 x) eqn:E; simpl; qconst; [|lra].
  apply Qltb_lt in E. apply Qlt_le_weak. exact E.
Qed.

Lemma loss_entry_nonneg (d : cell) :
  nonneg (Cell.neg (if (d <? c0)%cell then d else c0)).
Proof.
  destruct d as [| | |x]; simpl; qconst; try lra; try exact I.
  destruct (Qltb x 0) eqn:E; simpl; qconst; [|lra].
  apply Qltb_lt in E. lra.
Qed.

Lemma RSI_gain_nonneg (data : DataFrame) : Forall nonneg (RSI_gain data).
Proof.
  unfold RSI_gain, where_. apply Forall_forall. intros v Hv.
  apply in_map_iff in Hv as (d & <- & _). apply gain_entry_nonneg.
Qed.

Lemma RSI_loss_nonneg (data : DataFrame) : Forall nonneg (RSI_loss data).
Proof.
  unfold RSI_loss, where_. rewrite map_map.
  apply Forall_forall. intros v Hv.
  apply in_map_iff in Hv as (d & <- & _). apply loss_entry_nonneg.
Qed.

(** The ratio of two averages is NaN, [+inf] or a non-negative number. *)
Lemma rs_entry (g l : cell) :
  g = NaN \/ nonneg g -> l = NaN \/ nonneg l ->
  (g / l)%cell = NaN \/ nonneg (g / l)%cell.
Proof.
  intros [-> | Hg]; [left; reflexivity|].
  intros [-> | Hl]; [left; destruct g; reflexivity|].
  destruct g as [| | |x], l as [| | |y]; simpl in *; try tauto.
  - destruct (Qsgn y) eqn:Ey; simpl; try tauto.
    exfalso. unfold Qsgn in Ey. apply Qgt_alt in Ey. lra.
  - right. lra.
  - destruct (Qsgn y) eqn:Ey.
    + destruct (Qsgn x) eqn:Ex; [left; reflexivity|right; exact I|].
      exfalso. unfold Qsgn in Ex. apply Qgt_alt in Ex. lra.
    + right. simpl. apply Qle_shift_div_l; [now apply Qlt_alt|lra].
    + exfalso. unfold Qsgn in Ey. apply Qgt_alt in Ey. lra.
Qed.

Lemma rsi_of_rs_range (r : cell) :
  nonneg r -> exists q, rsi_of_rs r = Fin q /\ (0 <= q <= 100)%Q.
Proof.
  intro Hr. destruct r as [| | |x]; simpl in Hr; try tauto.
  - exists (100 + - 0)%Q. split; [reflexivity|lra].
  - assert (Hpos : (0 < inject_Z 1 + x)%Q)
      by (change (inject_Z 1) with 1%Q; lra).
    exists (inject_Z 100 + - (inject_Z 100 / (inject_Z 1 + x)))%Q.
    split.
    + unfold rsi_of_rs, c100, c1, of_Z. simpl.
      rewrite (Qsgn_pos Hpos). reflexivity.
    + assert (H1 : (0 <= inject_Z 100 / (inject_Z 1 + x))%Q).
      { apply Qle_shift_div_l; [exact Hpos|].
        change (inject_Z 100) with 100%Q. lra. }
      assert (H2 : (inject_Z 100 / (inject_Z 1 + x) <= 100)%Q).
      { apply Qle_shift_div_r; [exact Hpos|].
        change (inject_Z 100) with 100%Q. change (inject_Z 1) with 1%Q. lra. }
      change (inject_Z 100) with 100%Q in *. lra.
Qed.

Lemma rsi_of_rs_nan : rsi_of_rs NaN = NaN.
Proof. reflexivity. Qed.

Lemma diff_from_length (p : cell) (s : list cell) :
  List.length (diff_from p s) = List.length s.
Proof.
  revert p. induction s as [|x s IH]; intro p; simpl; [reflexivity|].
  now rewrite IH.
Qed.

Lemma diff_length (s : list cell) : List.length (diff s) = List.length s.
Proof. destruct s; simpl; [reflexivity|]. now rewrite diff_from_length. Qed.

Lemma RSI_gain_length (data : DataFrame) :
  List.length (RSI_gain data) = List.length data.
Proof.
  unfold RSI_gain, where_, RSI_delta, column.
  now rewrite length_map, diff_length, length_map.
Qed.

Lemma RSI_loss_length (data : DataFrame) :
  List.length (RSI_loss data) = List.length data.
Proof.
  unfold RSI_loss, where_, RSI_delta, column.
  now rewrite !length_map, diff_length, length_map.
Qed.

Lemma avg_gain_length (data : DataFrame) :
  List.length (avg_gain data) = List.length data.
Proof.
  unfold avg_gain, rolling_mean. now rewrite rolling_length, RSI_gain_length.
Qed.

Lemma avg_loss_length (data : DataFrame) :
  List.length (avg_loss data) = List.length data.
Proof.
  unfold avg_loss, rolling_mean. now rewrite rolling_length, RSI_loss_length.
Qed.

Lemma RSI_length (data : DataFrame) :
  List.length (RSI data) = List.length data.
Proof.
  unfold RSI, rs.
  rewrite length_map, zip_with_length; rewrite avg_gain_length;
    [reflexivity|now rewrite avg_loss_length].
Qed.

(** C6: the RSI column has one entry per row, and every entry is NaN or a
    number between 0 and 100, whatever the closes are. *)
Theorem RSI_in_0_100 (data : DataFrame) :
  List.length (RSI data) = List.length data
  /\ Forall (fun v => v = NaN \/ exists q, v = Fin q /\ (0 <= q <= 100)%Q)
            (RSI data).
Proof.
  split; [apply RSI_length|].
  unfold RSI. apply Forall_forall. intros v Hv.
  apply in_map_iff in Hv as (r & <- & Hr).
  assert (H : Forall (fun r => r = NaN \/ nonneg r) (rs data)).
  { unfold rs, avg_gain, avg_loss.
    eapply zip_with_Forall; [exact rs_entry| |];
      (apply rolling_mean_nonneg; [lia|]);
      [apply RSI_gain_nonneg|apply RSI_loss_nonneg]. }
  destruct (proj1 (Forall_forall _ _) H r Hr) as [-> | Hn].
  - left. reflexivity.
  - right. apply rsi_of_rs_range, Hn.
Qed.

Lemma Forall_nonneg_notna (s : list cell) :
  Forall nonneg s -> Forall (fun x => isna x = false) s.
Proof. apply Forall_impl. exact nonneg_notna. Qed.

(** From position 13 on, the average of a gain or loss column is a
    non-negative number or [+inf]; before, it is NaN. *)
Lemma at_rolling_mean_nonneg (s : list cell) (i : nat) :
  Forall nonneg s -> i < List.length s ->
  (i + 1 < 14 /\ at_ (rolling_mean 14 s) i = NaN)
  \/ (14 <= i + 1 /\ nonneg (at_ (rolling_mean 14 s) i)).
Proof.
  intros Hs Hi. unfold rolling_mean.
  rewrite at_rolling_notna by (auto using Forall_nonneg_notna).
  destruct (i + 1 <? 14) eqn:E.
  - left. apply Nat.ltb_lt in E. auto.
  - right. apply Nat.ltb_ge in E. split; [exact E|].
    apply mean_nonneg; [apply window_at_Forall; exact Hs|].
    rewrite window_at_length by exact Hi. lia.
Qed.

Lemma at_RSI (data : DataFrame) (i : nat) :
  i < List.length data ->
  at_ (RSI data) i
  = rsi_of_rs (at_ (avg_gain data) i / at_ (avg_loss data) i)%cell.
Proof.
  intro Hi. unfold RSI, rs.
  assert (EL : List.length (avg_gain data) = List.length (avg_loss data))
    by now rewrite avg_gain_length, avg_loss_length.
  rewrite at_map by (rewrite zip_with_length, avg_gain_length; assumption).
  rewrite at_zip_with by (try exact EL; rewrite avg_gain_length; exact Hi).
  reflexivity.
Qed.

(** The recomputation at the end of the script yields the same values. *)
Lemma RSI_np_eq (data : DataFrame) : RSI_np data = RSI data.
Proof.
  unfold RSI_np, RSI, rs, avg_gain, avg_loss.
  replace (RSI_loss_np data) with (RSI_loss data); [reflexivity|].
  unfold RSI_loss, RSI_loss_np, where_. rewrite map_map.
  apply map_ext. intro d. destruct (d <? c0)%cell; reflexivity.
Qed.

(** Fifteen closes rising by one a day: no loss in any window. *)
Definition rising15 : DataFrame :=
  bars (map (fun c => (c, c))
            [1; 2; 3; 4; 5; 6; 7; 8; 9; 10; 11; 12; 13; 14; 15])%Z.

(** C3 (counter-example): on [rising15] the average loss at position 13 is
    exactly zero and the RSI there is the number 100, in the first
    computation and in the recomputation. *)
Lemma rising_series_has_rsi_100 :
  at_ (avg_loss rising15) 13 = Fin (0 # 14)
  /\ (0 # 14 == 0)%Q
  /\ at_ (RSI rising15) 13 = of_Z 100
  /\ at_ (RSI_np rising15) 13 = of_Z 100
  /\ isna (at_ (RSI rising15) 13) = false.
Proof. repeat split; vm_compute; reflexivity. Qed.

(** C3 (amended): where the 14-period average loss is exactly zero nothing
    is raised, and the RSI is NaN when the average gain is zero as well and
    the number 100 when the average gain is positive. *)
Theorem rsi_at_zero_average_loss (data : DataFrame) (i : nat) (z : Q) :
  at_ (avg_loss data) i = Fin z -> (z == 0)%Q ->
  (exists g, at_ (avg_gain data) i = Fin g /\ (g == 0)%Q
             /\ at_ (RSI data) i = NaN /\ at_ (RSI_np data) i = NaN)
  \/ ((at_ (avg_gain data) i = PInf
       \/ exists g, at_ (avg_gain data) i = Fin g /\ (0 < g)%Q)
      /\ exists q, at_ (RSI data) i = Fin q /\ at_ (RSI_np data) i = Fin q
                   /\ (q == 100)%Q).
Proof.
  intros Hl Hz. rewrite RSI_np_eq.
  assert (Hi : i < List.length data).
  { destruct (Nat.lt_ge_cases i (List.length data)) as [H | H]; [exact H|].
    rewrite at_out_of_range in Hl by (rewrite avg_loss_length; exact H).
    discriminate. }
  rewrite at_RSI by exact Hi. rewrite Hl.
  destruct (@at_rolling_mean_nonneg (RSI_loss data) i (RSI_loss_nonneg data))
    as [[_ Hnan] | [H14 _]].
  { rewrite RSI_loss_length; exact Hi. }
  { unfold avg_loss in Hl. rewrite Hl in Hnan. discriminate. }
  destruct (@at_rolling_mean_nonneg (RSI_gain data) i (RSI_gain_nonneg data))
    as [[Hlt _] | [_ Hg]].
  { rewrite RSI_gain_length; exact Hi. }
  { lia. }
  fold (avg_gain data) in Hg.
  destruct (at_ (avg_gain data) i) as [| | |g]; simpl in Hg; try tauto.
  - right. split; [left; reflexivity|].
    exists (inject_Z 100 + - 0)%Q.
    simpl. rewrite (Qsgn_zero Hz). repeat split; reflexivity.
  - simpl. rewrite (Qsgn_zero Hz).
    destruct (Qsgn g) eqn:Eg.
    + left. exists g. unfold Qsgn in Eg. apply Qeq_alt in Eg.
      repeat split; try reflexivity. now symmetry.
    + right. unfold Qsgn in Eg. apply Qlt_alt in Eg.
      split; [right; exists g; split; [reflexivity|exact Eg]|].
      exists (inject_Z 100 + - 0)%Q. repeat split; reflexivity.
    + exfalso. unfold Qsgn in Eg. apply Qgt_alt in Eg. lra.
Qed.

Lemma rsi_at_zero_average_loss_witness :
  (exists g, at_ (avg_gain rising15) 13 = Fin g /\ (g == 0)%Q
             /\ at_ (RSI rising15) 13 = NaN /\ at_ (RSI_np rising15) 13 = NaN)
  \/ ((at_ (avg_gain rising15) 13 = PInf
       \/ exists g, at_ (avg_gain rising15) 13 = Fin g /\ (0 < g)%Q)
      /\ exists q, at_ (RSI rising15) 13 = Fin q
                   /\ at_ (RSI_np rising15) 13 = Fin q /\ (q == 100)%Q).
Proof.
  apply (@rsi_at_zero_average_loss rising15 13 (0 # 14)).
  - vm_compute; reflexivity.
  - reflexivity.
Defined.

(** ** Moving averages and Bollinger bands on a sanitized table *)

(** A price point of the data model: the four prices are finite numbers. *)
Definition finite_ohlc (r : Row) : bool :=
  is_fin (Open r) && is_fin (High r) && is_fin (Low r) && is_fin (Close r).

Definition sanitized (data : DataFrame) : Prop :=
  Forall (fun r => finite_ohlc r = true) data.

(** The close at row [k] as a rational. *)
Definition to_Q (c : cell) : Q :=
  match c with Fin q => q | _ => 0%Q end.

Definition close_q (data : DataFrame) (k : nat) : Q :=
  to_Q (at_ (column Close data) k).

(** The sum of a list of rationals, and the arithmetic mean and the sample
    variance (divisor [n - 1]) of the closes at rows [lo .. hi-1]. *)
Definition Qsum (qs : list Q) : Q := fold_right Qplus 0%Q qs.

Definition close_mean (data : DataFrame) (lo hi : nat) : Q :=
  (Qsum (map (close_q data) (range lo hi))
   / inject_Z (Z.of_nat (hi - lo)))%Q.

Definition close_sample_variance (data : DataFrame) (lo hi : nat) : Q :=
  (Qsum (map (fun k => (close_q data k - close_mean data lo hi)
                       * (close_q data k - close_mean data lo hi))
             (range lo hi))
   / inject_Z (Z.of_nat (hi - lo - 1)))%Q.

Lemma sanitized_forallb (data : DataFrame) :
  forallb finite_ohlc data = true -> sanitized data.
Proof. intro H. apply Forall_forall. now apply forallb_forall. Qed.

Lemma sanitized_sanitize (data : DataFrame) :
  sanitized data -> sanitize data = data.
Proof.
  intro H. rewrite sanitize_filter.
  induction H as [|r data Hr _ IH]; simpl; [reflexivity|].
  rewrite IH. unfold finite_ohlc in Hr. unfold ohlc_present, notna.
  destruct (Open r), (High r), (Low r), (Close r); try discriminate;
    reflexivity.
Qed.

(** A raw table whose prices are finite where present leaves the sanitizer
    sanitized. *)
Lemma sanitize_sanitized (raw : DataFrame) :
  Forall (fun r => Forall (fun col => isna (col r) = true
                                      \/ is_fin (col r) = true) ohlc_cols)
         raw ->
  sanitized (sanitize raw).
Proof.
  intro H. rewrite sanitize_filter. unfold sanitized.
  apply Forall_forall. intros r Hr.
  apply filter_In in Hr as [Hr Hp].
  pose proof (proj1 (Forall_forall _ _) H r Hr) as Hc.
  unfold ohlc_cols in Hc.
  inversion_clear Hc as [|? ? Ho Hc1]. inversion_clear Hc1 as [|? ? Hh Hc2].
  inversion_clear Hc2 as [|? ? Hl Hc3]. inversion_clear Hc3 as [|? ? Hcl _].
  unfold ohlc_present, notna in Hp. unfold finite_ohlc.
  destruct (Open r), (High r), (Low r), (Close r); simpl in *;
    try discriminate; try reflexivity;
    destruct Ho, Hh, Hl, Hcl; discriminate.
Qed.

Lemma sanitized_close (data : DataFrame) :
  sanitized data -> Forall (fun c => is_fin c = true) (column Close data).
Proof.
  intro H. unfold column. apply Forall_forall. intros c Hc.
  apply in_map_iff in Hc as (r & <- & Hr).
  pose proof (proj1 (Forall_forall _ _) H r Hr) as Hf.
  unfold finite_ohlc in Hf. now apply andb_true_iff in Hf as [_ Hf].
Qed.

Lemma is_fin_to_Q (c : cell) : is_fin c = true -> c = Fin (to_Q c).
Proof. destruct c; simpl; intro; try discriminate; reflexivity. Qed.

Lemma is_fin_notna (s : list cell) :
  Forall (fun c => is_fin c = true) s -> Forall (fun c => isna c = false) s.
Proof.
  apply Forall_impl. intros [| | |q]; simpl; intro; try discriminate;
    reflexivity.
Qed.

Lemma Forall_map_to_Q (xs : list cell) :
  Forall (fun c => is_fin c = true) xs -> xs = map Fin (map to_Q xs).
Proof.
  induction 1 as [|x xs Hx _ IH]; simpl; [reflexivity|].
  now rewrite <- IH, <- (is_fin_to_Q _ Hx).
Qed.

(** The window of closes at [i], as rationals. *)
Lemma close_window (data : DataFrame) (w i : nat) :
  sanitized data -> i < List.length data ->
  window_at w (column Close data) i
  = map Fin (map (close_q data) (range (i + 1 - w) (i + 1))).
Proof.
  intros Hs Hi.
  rewrite (Forall_map_to_Q (window_at_Forall w i (sanitized_close Hs))).
  rewrite window_at_seq by (unfold column; rewrite length_map; exact Hi).
  f_equal. rewrite map_map. reflexivity.
Qed.

Lemma fold_left_Qplus (qs : list Q) (a : Q) :
  (fold_left Qplus qs a == a + Qsum qs)%Q.
Proof.
  revert a. induction qs as [|q qs IH]; intro a; simpl.
  - ring.
  - rewrite IH. ring.
Qed.

Lemma sum_Fin_acc (qs : list Q) (a : Q) :
  fold_left Cell.add (map Fin qs) (Fin a) = Fin (fold_left Qplus qs a).
Proof.
  revert a. induction qs as [|q qs IH]; intro a; simpl; [reflexivity|].
  apply IH.
Qed.

Lemma sum_Fin (qs : list Q) :
  sum (map Fin qs) = Fin (fold_left Qplus qs 0%Q).
Proof. apply sum_Fin_acc. Qed.

Lemma mean_Fin (qs : list Q) :
  0 < List.length qs ->
  mean (map Fin qs)
  = Fin (fold_left Qplus qs 0%Q / inject_Z (Z.of_nat (List.length qs)))%Q.
Proof.
  intro Hn. unfold mean. rewrite sum_Fin, length_map.
  unfold of_nat, of_Z. simpl. now rewrite (Qsgn_pos (of_nat_pos Hn)).
Qed.

Lemma Qsum_map_ext (A : Type) (f g : A -> Q) (l : list A) :
  (forall k, (f k == g k)%Q) -> (Qsum (map f l) == Qsum (map g l))%Q.
Proof.
  intro H. induction l as [|k l IH]; simpl; [reflexivity|].
  now rewrite IH, (H k).
Qed.

Lemma Qsum_squares_nonneg (A : Type) (f : A -> Q) (l : list A) :
  (0 <= Qsum (map (fun k => f k * f k) l))%Q.
Proof.
  induction l as [|k l IH]; simpl; [lra|].
  assert (0 <= f k * f k)%Q by nra. lra.
Qed.

Lemma range_length (a b : nat) : List.length (range a b) = b - a.
Proof. unfold range. apply length_seq. Qed.

(** A rolling mean of the closes: NaN before position [w-1], the arithmetic
    mean of the last [w] closes from there on. *)
Lemma at_rolling_mean_close (data : DataFrame) (w i : nat) :
  sanitized data -> 0 < w -> i < List.length data ->
  (i + 1 < w /\ at_ (rolling_mean w (column Close data)) i = NaN)
  \/ (w <= i + 1
      /\ exists m, at_ (rolling_mean w (column Close data)) i = Fin m
                   /\ (m == close_mean data (i + 1 - w) (i + 1))%Q).
Proof.
  intros Hs Hw Hi. unfold rolling_mean.
  rewrite at_rolling_notna
    by (try (apply is_fin_notna, sanitized_close, Hs);
        unfold column; rewrite length_map; exact Hi).
  destruct (i + 1 <? w) eqn:E.
  - left. apply Nat.ltb_lt in E. auto.
  - right. apply Nat.ltb_ge in E. split; [exact E|].
    rewrite close_window by assumption.
    rewrite mean_Fin by (rewrite length_map, range_length; lia).
    eexists. split; [reflexivity|].
    unfold close_mean. rewrite length_map, range_length.
    rewrite fold_left_Qplus. 
    replace (i + 1 - (i + 1 - w)) with w by lia.
    field. intro H0. pose proof (of_nat_pos Hw). lra.
Qed.

(** Sixty closes rising by one a day. *)
Definition sixty_rising : DataFrame :=
  bars (map (fun k => (Z.of_nat k, Z.of_nat k)) (seq 1 60)).

(** C8: on a sanitized table SMA50 is NaN at the positions below 49 and, from
    position 49 on, the sum of the fifty closes at [i-49 .. i] divided by 50
    (this also covers tables of fewer than 50 rows, where no position
    reaches 49). *)
Theorem SMA50_is_mean_from_position_49 (data : DataFrame) (i : nat) :
  sanitized data -> i < List.length data ->
  (i < 49 /\ at_ (SMA50 data) i = NaN)
  \/ (49 <= i
      /\ exists m, at_ (SMA50 data) i = Fin m
           /\ (m == Qsum (map (close_q data) (range (i - 49) (i + 1))) / 50)%Q).
Proof.
  intros Hs Hi. unfold SMA50.
  destruct (@at_rolling_mean_close data 50 i Hs) as [[Hlt Hn] | [Hge (m & Hm & Em)]];
    try lia; try assumption.
  - left. split; [lia|exact Hn].
  - right. split; [lia|]. exists m. split; [exact Hm|].
    rewrite Em. unfold close_mean.
    replace (i + 1 - 50) with (i - 49) by lia.
    replace (i + 1 - (i - 49)) with 50 by lia.
    reflexivity.
Qed.

Lemma SMA50_is_mean_from_position_49_witness :
  (49 < 49 /\ at_ (SMA50 sixty_rising) 49 = NaN)
  \/ (49 <= 49
      /\ exists m, at_ (SMA50 sixty_rising) 49 = Fin m
           /\ (m == Qsum (map (close_q sixty_rising) (range (49 - 49) (49 + 1)))
                   / 50)%Q).
Proof.
  apply (@SMA50_is_mean_from_position_49 sixty_rising 49).
  - apply sanitized_forallb. vm_compute; reflexivity.
  - vm_compute. lia.
Defined.

Section BollingerWidth.

Variable sqrtQ : Q -> Q.

(** Squared deviations of the rationals [qs] from [m]. *)
Let sq (m q : Q) : Q := ((q + - m) * (q + - m))%Q.

Lemma sq_dev_Fin (m : Q) (qs : list Q) :
  sq_dev (Fin m) (map Fin qs)
  = Fin (fold_left Qplus (map (sq m) qs) 0%Q).
Proof.
  unfold sq_dev. rewrite map_map.
  rewrite <- sum_Fin, map_map. reflexivity.
Qed.

Lemma std_Fin (qs : list Q) :
  2 <= List.length qs ->
  exists m V,
    m = (fold_left Qplus qs 0 / inject_Z (Z.of_nat (List.length qs)))%Q
    /\ V = fold_left Qplus (map (sq m) qs) 0%Q
    /\ std sqrtQ (map Fin qs)
       = Fin (sqrtQ (V / inject_Z (Z.of_nat (List.length qs - 1)))).
Proof.
  intro Hn. eexists. eexists. split; [reflexivity|]. split; [reflexivity|].
  unfold std. rewrite mean_Fin by lia. rewrite sq_dev_Fin, length_map.
  set (m := (fold_left Qplus qs 0 / _)%Q).
  set (V := fold_left Qplus (map (sq m) qs) 0%Q).
  assert (Hpos : (0 < inject_Z (Z.of_nat (List.length qs - 1)))%Q)
    by (apply of_nat_pos; lia).
  assert (HV : (0 <= V)%Q).
  { unfold V. rewrite fold_left_Qplus.
    pose proof (Qsum_squares_nonneg (fun q => (q + - m)%Q) qs) as H.
    unfold sq. cbv beta in H. lra. }
  unfold of_nat, of_Z. simpl Cell.div. rewrite (Qsgn_pos Hpos).
  simpl. 
  assert (Hq : (0 <= V / inject_Z (Z.of_nat (List.length qs - 1)))%Q)
    by (apply Qle_shift_div_l; [exact Hpos|lra]).
  destruct (Qltb _ 0) eqn:E; [|reflexivity].
  apply Qltb_lt in E. lra.
Qed.

End BollingerWidth.

Lemma SMA20_length (data : DataFrame) :
  List.length (SMA20 data) = List.length data.
Proof.
  unfold SMA20, rolling_mean, column. now rewrite rolling_length, length_map.
Qed.

Lemma BB_std_length (sqrtQ : Q -> Q) (data : DataFrame) :
  List.length (BB_std sqrtQ data) = List.length data.
Proof. unfold BB_std, column. now rewrite rolling_length, length_map. Qed.

(** The rolling standard deviation of the closes from position 19 on. *)
Lemma at_BB_std (sqrtQ : Q -> Q) (data : DataFrame) (i : nat) :
  sanitized data -> i < List.length data -> 19 <= i ->
  exists v, at_ (BB_std sqrtQ data) i = Fin (sqrtQ v)
            /\ (v == close_sample_variance data (i - 19) (i + 1))%Q.
Proof.
  intros Hs Hi H19. unfold BB_std.
  rewrite at_rolling_notna
    by (try (apply is_fin_notna, sanitized_close, Hs);
        unfold column; rewrite length_map; exact Hi).
  replace (i + 1 <? 20) with false by (symmetry; apply Nat.ltb_ge; lia).
  rewrite close_window by assumption.
  replace (i + 1 - 20) with (i - 19) by lia.
  set (qs := map (close_q data) (range (i - 19) (i + 1))).
  assert (Hlen : List.length qs = 20)
    by (unfold qs; rewrite length_map, range_length; lia).
  destruct (@std_Fin sqrtQ qs) as (m & V & Hm & HV & Hstd); [lia|].
  rewrite Hstd. eexists. split; [reflexivity|].
  unfold close_sample_variance, close_mean.
  replace (i + 1 - (i - 19) - 1) with 19 by lia.
  replace (i + 1 - (i - 19)) with 20 by lia.
  rewrite Hlen. change (20 - 1) with 19.
  rewrite HV, fold_left_Qplus. unfold qs at 1. rewrite map_map.
  assert (Em : (m == Qsum qs / inject_Z (Z.of_nat 20))%Q).
  { rewrite Hm, Hlen, fold_left_Qplus. field. }
  rewrite (@Qsum_map_ext nat _
             (fun k => (close_q data k - Qsum qs / inject_Z (Z.of_nat 20))
                       * (close_q data k - Qsum qs / inject_Z (Z.of_nat 20)))%Q).
  - fold qs. field.
  - intro k. rewrite Em. ring.
Qed.

(** A rational lower approximation of the square root, to run the Bollinger
    columns on sample tables. *)
Definition sqrt_floor (q : Q) : Q :=
  Qmake (Z.sqrt (Qnum q * Zpos (Qden q))) (Qden q).

(** C7 (amended): with the finite values taken as exact rationals, that is
    with every binary64 rounding left out, on a sanitized table at every
    position where SMA20 is not NaN the rolling standard deviation is the
    square root of the sample variance (divisor 19) of the twenty closes at
    [i-19 .. i], and the upper band minus the lower band is four times that
    standard deviation. *)
Theorem bollinger_width_is_four_std
    (sqrtQ : Q -> Q) (data : DataFrame) (i : nat) :
  sanitized data -> isna (at_ (SMA20 data) i) = false ->
  exists s v d,
    at_ (BB_std sqrtQ data) i = Fin s
    /\ s = sqrtQ v
    /\ (v == close_sample_variance data (i - 19) (i + 1))%Q
    /\ (at_ (BB_upper sqrtQ data) i - at_ (BB_lower sqrtQ data) i)%cell = Fin d
    /\ (d == 4 * s)%Q.
Proof.
  intros Hs Hdef.
  assert (Hi : i < List.length data).
  { destruct (Nat.lt_ge_cases i (List.length data)) as [H | H]; [exact H|].
    rewrite at_out_of_range in Hdef by (rewrite SMA20_length; exact H).
    discriminate. }
  unfold SMA20 in Hdef.
  destruct (@at_rolling_mean_close data 20 i Hs)
    as [[_ Hn] | [H20 (m & Hm & _)]]; try lia; try assumption.
  { rewrite Hn in Hdef. discriminate. }
  destruct (@at_BB_std sqrtQ data i Hs Hi) as (v & Hstd & Ev); [lia|].
  exists (sqrtQ v), v.
  assert (Hmul : at_ (map (Cell.mul (c2)) (BB_std sqrtQ data)) i
                 = Fin (inject_Z 2 * sqrtQ v)%Q).
  { rewrite at_map by (rewrite BB_std_length; exact Hi).
    rewrite Hstd. reflexivity. }
  assert (EL : List.length (SMA20 data)
               = List.length (map (Cell.mul c2) (BB_std sqrtQ data)))
    by now rewrite length_map, SMA20_length, BB_std_length.
  unfold BB_upper, BB_lower.
  rewrite !at_zip_with by (try exact EL; rewrite SMA20_length; exact Hi).
  rewrite Hmul. unfold SMA20. rewrite Hm.
  eexists. split; [exact Hstd|]. split; [reflexivity|].
  split; [exact Ev|]. split; [reflexivity|].
  change (inject_Z 2) with 2%Q. ring.
Qed.

Lemma bollinger_width_is_four_std_witness :
  exists s v d,
    at_ (BB_std sqrt_floor twenty_rising) 19 = Fin s
    /\ s = sqrt_floor v
    /\ (v == close_sample_variance twenty_rising (19 - 19) (19 + 1))%Q
    /\ (at_ (BB_upper sqrt_floor twenty_rising) 19
        - at_ (BB_lower sqrt_floor twenty_rising) 19)%cell = Fin d
    /\ (d == 4 * s)%Q.
Proof.
  apply (@bollinger_width_is_four_std sqrt_floor twenty_rising 19).
  - apply sanitized_forallb. vm_compute; reflexivity.
  - vm_compute; reflexivity.
Defined.

(** * Further properties of the script *)

From Stdlib Require Import Sorted.

(** ** Pivot levels: shape of the result (lines 54-64, 119-129) *)

(** [l[-n:]] for a positive [n]: the last [n] entries, all of [l] when it is
    shorter. *)
Definition last_n {A : Type} (n : nat) (l : list A) : list A :=
  skipn (List.length l - n) l.

(** The levels drawn on the chart: [support_lvls[-3:]] and
    [resistance_lvls[-3:]] for the default window. *)
Definition support_lvls (data : DataFrame) : list (Z * cell) :=
  fst (find_support_resistance data 10).

Definition resistance_lvls (data : DataFrame) : list (Z * cell) :=
  snd (find_support_resistance data 10).

Definition drawn_support (data : DataFrame) : list (Z * cell) :=
  last_n 3 (support_lvls data).

Definition drawn_resistance (data : DataFrame) : list (Z * cell) :=
  last_n 3 (resistance_lvls data).

Lemma seq_strongly_sorted (a n : nat) : StronglySorted lt (seq a n).
Proof.
  revert a. induction n as [|n IH]; intro a; simpl; constructor.
  - apply IH.
  - apply Forall_forall. intros k Hk. apply in_seq in Hk. lia.
Qed.

Lemma filter_strongly_sorted (p : nat -> bool) (l : list nat) :
  StronglySorted lt l -> StronglySorted lt (filter p l).
Proof.
  induction 1 as [|x l Hl IH Hx]; simpl; [constructor|].
  destruct (p x); [|exact IH].
  constructor; [exact IH|].
  apply Forall_forall. intros k Hk. apply filter_In in Hk as [Hk _].
  exact (proj1 (Forall_forall _ _) Hx k Hk).
Qed.

Lemma strongly_sorted_app_lt (a b : list nat) :
  StronglySorted lt (a ++ b) ->
  forall x y, In x a -> In y b -> x < y.
Proof.
  induction a as [|z a IH]; simpl; intros H x y Hx Hy; [contradiction|].
  apply StronglySorted_inv in H as [Hs Hz].
  destruct Hx as [-> | Hx].
  - apply (proj1 (Forall_forall _ _) Hz). apply in_or_app. now right.
  - now apply IH.
Qed.

Lemma strongly_sorted_skipn (n : nat) (l : list nat) :
  StronglySorted lt l -> StronglySorted lt (skipn n l).
Proof.
  revert l. induction n as [|n IH]; intros l H; [exact H|].
  destruct l as [|x l]; [exact H|]. simpl.
  apply IH. now apply StronglySorted_inv in H.
Qed.

(** The rows the two tests accept, in row order. *)
Definition support_rows (df : DataFrame) (window : nat) : list nat :=
  filter (support_test (column Low df) window)
         (range window (List.length df - window)).

Definition resistance_rows (df : DataFrame) (window : nat) : list nat :=
  filter (resistance_test (column High df) window)
         (range window (List.length df - window)).

(** X1: the detector returns, in increasing row order and once each, the
    date and low of exactly the rows [i] with [window <= i < n - window] that
    pass the support test, and the date and high of exactly those that pass
    the resistance test. *)
Theorem pivot_levels_are_interior_rows_in_order
    (df : DataFrame) (window : nat) :
  exists sup res : list nat,
    find_support_resistance df window
    = (map (fun i => (index_at df i, at_ (column Low df) i)) sup,
       map (fun i => (index_at df i, at_ (column High df) i)) res)
    /\ StronglySorted lt sup /\ StronglySorted lt res
    /\ (forall i, In i sup <->
          window <= i /\ i + window < List.length df
          /\ support_test (column Low df) window i = true)
    /\ (forall i, In i res <->
          window <= i /\ i + window < List.length df
          /\ resistance_test (column High df) window i = true).
Proof.
  exists (support_rows df window), (resistance_rows df window).
  split; [apply find_support_resistance_levels|].
  unfold support_rows, resistance_rows.
  split; [apply filter_strongly_sorted, seq_strongly_sorted|].
  split; [apply filter_strongly_sorted, seq_strongly_sorted|].
  split; intro i; rewrite filter_In, in_range; split; intros H;
    repeat split; try tauto; lia.
Qed.

(** X2: a table of at most [2 * window] rows has no interior row, and the
    detector returns two empty lists. *)
Theorem no_pivot_on_short_table (df : DataFrame) (window : nat) :
  List.length df <= 2 * window ->
  find_support_resistance df window = ([], []).
Proof.
  intro H. unfold find_support_resistance, range.
  replace (List.length df - window - window) with 0 by lia.
  reflexivity.
Qed.

Lemma no_pivot_on_short_table_witness :
  find_support_resistance outside_bar 3 = ([], []).
Proof.
  apply (@no_pivot_on_short_table outside_bar 3).
  vm_compute. lia.
Defined.

Lemma support_tests_apart (s : list cell) (window i k : nat) :
  support_test s window i = true -> support_test s window k = true ->
  i < k -> window <= k - i.
Proof.
  intros Hi Hk Hlt.
  destruct (Nat.le_gt_cases window (k - i)) as [H | H]; [exact H|exfalso].
  rewrite support_test_offsets in Hi, Hk.
  destruct (Hi (k - i)) as [_ H1]; [lia|].
  destruct (Hk (k - i)) as [H2 _]; [lia|].
  replace (i + (k - i)) with k in H1 by lia.
  replace (k - (k - i)) with i in H2 by lia.
  apply ltb_asym in H1. congruence.
Qed.

Lemma resistance_tests_apart (s : list cell) (window i k : nat) :
  resistance_test s window i = true -> resistance_test s window k = true ->
  i < k -> window <= k - i.
Proof.
  intros Hi Hk Hlt.
  destruct (Nat.le_gt_cases window (k - i)) as [H | H]; [exact H|exfalso].
  rewrite resistance_test_offsets in Hi, Hk.
  destruct (Hi (k - i)) as [_ H1]; [lia|].
  destruct (Hk (k - i)) as [H2 _]; [lia|].
  replace (i + (k - i)) with k in H1 by lia.
  replace (k - (k - i)) with i in H2 by lia.
  unfold Cell.gtb in *. apply ltb_asym in H1. congruence.
Qed.

(** Seven bars with two dips two rows apart. *)
Definition two_dips : DataFrame :=
  bars [(9, 5); (9, 5); (9, 1); (9, 5); (9, 1); (9, 5); (9, 5)]%Z.

(** X3: two different rows that are both marked as support, or both marked
    as resistance, lie at least [window] rows apart. *)
Theorem pivots_of_one_kind_are_window_apart
    (df : DataFrame) (window i k : nat) :
  (marks_support df window i = true /\ marks_support df window k = true)
  \/ (marks_resistance df window i = true
      /\ marks_resistance df window k = true) ->
  i < k -> window <= k - i.
Proof.
  unfold marks_support, marks_resistance.
  intros [[Hi Hk] | [Hi Hk]] Hlt;
    apply andb_true_iff in Hi as [_ Hi]; apply andb_true_iff in Hk as [_ Hk].
  - eapply support_tests_apart; eassumption.
  - eapply resistance_tests_apart; eassumption.
Qed.

Lemma pivots_of_one_kind_are_window_apart_witness : 2 <= 4 - 2.
Proof.
  apply (@pivots_of_one_kind_are_window_apart two_dips 2 2 4).
  - left. split; vm_compute; reflexivity.
  - lia.
Defined.

Lemma at_column (f : Row -> cell) (df : DataFrame) (c : cell) (i : nat) :
  Forall (fun r => f r = c) df -> i < List.length df ->
  at_ (column f df) i = c.
Proof.
  intros H Hi. unfold at_, column.
  rewrite (nth_indep _ NaN (f (mkRow 0 NaN NaN NaN NaN NaN)))
    by (rewrite length_map; exact Hi).
  rewrite map_nth.
  apply (proj1 (Forall_forall _ _) H). now apply nth_In.
Qed.

Lemma filter_none (p : nat -> bool) (l : list nat) :
  (forall i, In i l -> p i = false) -> filter p l = [].
Proof.
  induction l as [|x l IH]; intro H; simpl; [reflexivity|].
  rewrite (H x) by now left. apply IH. intros i Hi. apply H. now right.
Qed.

Lemma filter_all (p : nat -> bool) (l : list nat) :
  (forall i, In i l -> p i = true) -> filter p l = l.
Proof.
  induction l as [|x l IH]; intro H; simpl; [reflexivity|].
  rewrite (H x) by now left. f_equal. apply IH. intros i Hi. apply H.
  now right.
Qed.

(** Seven equal bars. *)
Definition flat_week : DataFrame := bars (repeat (9, 5)%Z 7).

(** X4: ties do not qualify: on a table whose lows are all equal and whose
    highs are all equal the detector, run with a window of at least 2, finds
    no level at all. *)
Theorem no_pivot_on_flat_table
    (df : DataFrame) (window : nat) (lo hi : cell) :
  2 <= window ->
  Forall (fun r => Low r = lo) df -> Forall (fun r => High r = hi) df ->
  find_support_resistance df window = ([], []).
Proof.
  intros Hw Hlo Hhi. rewrite find_support_resistance_levels.
  rewrite !filter_none; [reflexivity| |]; intros i Hi;
    apply in_range in Hi.
  - destruct (resistance_test (column High df) window i) eqn:E;
      [|reflexivity].
    rewrite resistance_test_offsets in E.
    destruct (E 1) as [E1 _]; [lia|]. unfold Cell.gtb in E1.
    rewrite !(at_column High Hhi) in E1 by lia.
    now rewrite ltb_irrefl in E1.
  - destruct (support_test (column Low df) window i) eqn:E; [|reflexivity].
    rewrite support_test_offsets in E.
    destruct (E 1) as [E1 _]; [lia|].
    rewrite !(at_column Low Hlo) in E1 by lia.
    now rewrite ltb_irrefl in E1.
Qed.

Lemma no_pivot_on_flat_table_witness :
  find_support_resistance flat_week 2 = ([], []).
Proof.
  apply (@no_pivot_on_flat_table flat_week 2 (of_Z 5) (of_Z 9)).
  - lia.
  - repeat constructor.
  - repeat constructor.
Defined.

(** X5: with a window of 0 or 1 the offsets [range(1, window)] are empty and
    both tests hold vacuously: every row the loop visits is returned, as a
    support level and as a resistance level. *)
Theorem every_visited_row_is_pivot_for_window_below_2
    (df : DataFrame) (window : nat) :
  window <= 1 ->
  find_support_resistance df window
  = (map (fun i => (index_at df i, at_ (column Low df) i))
         (range window (List.length df - window)),
     map (fun i => (index_at df i, at_ (column High df) i))
         (range window (List.length df - window))).
Proof.
  intro Hw. rewrite find_support_resistance_levels.
  assert (E : range 1 window = [])
    by (unfold range; replace (window - 1) with 0 by lia; reflexivity).
  rewrite !filter_all; [reflexivity| |]; intros i _.
  - unfold resistance_test. now rewrite E.
  - unfold support_test. now rewrite E.
Qed.

Lemma every_visited_row_is_pivot_for_window_below_2_witness :
  find_support_resistance flat_week 1
  = (map (fun i => (index_at flat_week i, at_ (column Low flat_week) i))
         (range 1 (List.length flat_week - 1)),
     map (fun i => (index_at flat_week i, at_ (column High flat_week) i))
         (range 1 (List.length flat_week - 1))).
Proof.
  apply (@every_visited_row_is_pivot_for_window_below_2 flat_week 1). lia.
Defined.

Lemma last_n_map {A B : Type} (f : A -> B) (n : nat) (l : list A) :
  last_n n (map f l) = map f (last_n n l).
Proof. unfold last_n. now rewrite length_map, skipn_map. Qed.

Lemma last_n_length {A : Type} (n : nat) (l : list A) :
  List.length (last_n n l) = Nat.min n (List.length l).
Proof. unfold last_n. rewrite length_skipn. lia. Qed.

Lemma last_n_latest (n : nat) (l : list nat) :
  StronglySorted lt l ->
  forall i k, In i l -> ~ In i (last_n n l) -> In k (last_n n l) -> i < k.
Proof.
  intros Hs i k Hi Hni Hk. unfold last_n in *.
  rewrite <- (firstn_skipn (List.length l - n) l) in Hs, Hi.
  apply in_app_or in Hi as [Hi | Hi]; [|contradiction].
  exact (strongly_sorted_app_lt _ _ Hs _ _ Hi Hk).
Qed.

(** X6: the support lines drawn on the chart are the levels of the last
    three rows marked as support (of all of them when there are fewer): at
    most three lines, in row order, and every marked row that is not drawn
    comes before every row that is.  The same holds for the resistance
    lines. *)
Theorem drawn_levels_are_the_latest_three (data : DataFrame) :
  (exists sup : list nat,
     support_lvls data
       = map (fun i => (index_at data i, at_ (column Low data) i)) sup
     /\ (forall i, In i sup <-> marks_support data 10 i = true)
     /\ drawn_support data
        = map (fun i => (index_at data i, at_ (column Low data) i))
              (last_n 3 sup)
     /\ StronglySorted lt (last_n 3 sup)
     /\ List.length (drawn_support data) = Nat.min 3 (List.length sup)
     /\ forall i k, In i sup -> ~ In i (last_n 3 sup) ->
                    In k (last_n 3 sup) -> i < k)
  /\ (exists res : list nat,
        resistance_lvls data
          = map (fun i => (index_at data i, at_ (column High data) i)) res
        /\ (forall i, In i res <-> marks_resistance data 10 i = true)
        /\ drawn_resistance data
           = map (fun i => (index_at data i, at_ (column High data) i))
                 (last_n 3 res)
        /\ StronglySorted lt (last_n 3 res)
        /\ List.length (drawn_resistance data) = Nat.min 3 (List.length res)
        /\ forall i k, In i res -> ~ In i (last_n 3 res) ->
                       In k (last_n 3 res) -> i < k).
Proof.
  unfold drawn_support, drawn_resistance, support_lvls, resistance_lvls.
  rewrite find_support_resistance_levels. simpl fst. simpl snd.
  split.
  - exists (support_rows data 10).
    assert (Hs : StronglySorted lt (support_rows data 10))
      by apply filter_strongly_sorted, seq_strongly_sorted.
    split; [reflexivity|].
    split; [intro i; symmetry; apply marks_support_visited|].
    split; [apply last_n_map|].
    split; [apply strongly_sorted_skipn, Hs|].
    split; [now rewrite last_n_map, length_map, last_n_length|].
    now apply last_n_latest.
  - exists (resistance_rows data 10).
    assert (Hs : StronglySorted lt (resistance_rows data 10))
      by apply filter_strongly_sorted, seq_strongly_sorted.
    split; [reflexivity|].
    split; [intro i; symmetry; apply marks_resistance_visited|].
    split; [apply last_n_map|].
    split; [apply strongly_sorted_skipn, Hs|].
    split; [now rewrite last_n_map, length_map, last_n_length|].
    now apply last_n_latest.
Qed.

(** ** Buy-strength meter: ranges and short tables (lines 146-172) *)

Lemma iloc_last_at (s : list cell) :
  s <> [] -> iloc_last s = Some (at_ s (List.length s - 1)).
Proof.
  intro H. destruct (exists_last H) as (pre & x & ->).
  rewrite iloc_last_snoc, length_app. simpl. unfold at_.
  rewrite app_nth2 by lia.
  replace (List.length pre + 1 - 1 - List.length pre) with 0 by lia.
  reflexivity.
Qed.

Lemma count_notna_le (xs : list cell) : count_notna xs <= List.length xs.
Proof. unfold count_notna. apply filter_length_le. Qed.

(** Before position [w-1] a rolling aggregate is NaN on every column. *)
Lemma at_rolling_warmup (w : nat) (agg : list cell -> cell) (s : list cell)
    (i : nat) :
  i + 1 < w -> at_ (rolling w agg s) i = NaN.
Proof.
  intro Hi.
  destruct (Nat.lt_ge_cases i (List.length s)) as [H | H].
  - rewrite at_rolling by exact H.
    pose proof (count_notna_le (window_at w s i)) as Hc.
    rewrite window_at_length in Hc by exact H.
    replace (count_notna (window_at w s i) <? w) with true
      by (symmetry; apply Nat.ltb_lt; lia).
    reflexivity.
  - apply at_out_of_range. now rewrite rolling_length.
Qed.

Lemma iloc_last_rolling_short (w : nat) (agg : list cell -> cell)
    (s : list cell) :
  1 <= List.length s -> List.length s < w ->
  iloc_last (rolling w agg s) = Some NaN.
Proof.
  intros H1 Hw. rewrite iloc_last_at.
  - rewrite rolling_length, at_rolling_warmup by lia. reflexivity.
  - intro E. apply (f_equal (@List.length cell)) in E.
    rewrite rolling_length in E. simpl in E. lia.
Qed.

Lemma iloc_last_some (s : list cell) :
  1 <= List.length s -> exists a, iloc_last s = Some a.
Proof.
  intro H. rewrite iloc_last_at; [eauto|].
  intro E. subst. simpl in H. lia.
Qed.

Lemma sub_nan_r (a : cell) : (a - NaN)%cell = NaN.
Proof. destruct a; reflexivity. Qed.

Lemma gtb_nan_l (b : cell) : (NaN >? b)%cell = false.
Proof. destruct b; reflexivity. Qed.

(** X7: on a table of 1 to 49 rows SMA50 has no value yet, the SMA
    difference is NaN (the [except] fallback is not reached) and the SMA term
    adds nothing: the score is at most 2 and the meter is Hold when the RSI
    used is below 30, Weak Hold when it is below 50, Sell otherwise; it is
    never Buy or Strong Buy. *)
Theorem meter_on_table_shorter_than_50 (data : DataFrame) :
  1 <= List.length data -> List.length data < 50 ->
  sma_diff data = NaN
  /\ score data <= 2
  /\ meter data
     = (if (latest_rsi data <? of_Z 30)%cell then Hold
        else if (latest_rsi data <? of_Z 50)%cell then WeakHold
        else Sell).
Proof.
  intros H1 H50.
  assert (Hd : sma_diff data = NaN).
  { unfold sma_diff, sma_diff_of, SMA20, SMA50, rolling_mean.
    rewrite (@iloc_last_rolling_short 50)
      by (unfold column; rewrite length_map; assumption).
    destruct (@iloc_last_some (rolling 20 mean (column Close data)))
      as [a ->].
    { unfold column. now rewrite rolling_length, length_map. }
    apply sub_nan_r. }
  split; [exact Hd|].
  unfold meter, score. rewrite Hd. unfold score_of.
  rewrite !gtb_nan_l.
  destruct (latest_rsi data <? of_Z 30)%cell; [split; [simpl; lia|reflexivity]|].
  destruct (latest_rsi data <? of_Z 50)%cell; split; simpl; try lia;
    reflexivity.
Qed.

Lemma meter_on_table_shorter_than_50_witness :
  sma_diff twenty_rising = NaN
  /\ score twenty_rising <= 2
  /\ meter twenty_rising
     = (if (latest_rsi twenty_rising <? of_Z 30)%cell then Hold
        else if (latest_rsi twenty_rising <? of_Z 50)%cell then WeakHold
        else Sell).
Proof.
  apply (@meter_on_table_shorter_than_50 twenty_rising);
    vm_compute; lia.
Defined.

(** The entries of the RSI column, for use below. *)
Lemma RSI_entries (data : DataFrame) :
  Forall (fun v => v = NaN \/ exists q, v = Fin q /\ (0 <= q <= 100)%Q)
         (RSI data).
Proof.
  unfold RSI. apply Forall_forall. intros v Hv.
  apply in_map_iff in Hv as (r & <- & Hr).
  assert (H : Forall (fun r => r = NaN \/ nonneg r) (rs data)).
  { unfold rs, avg_gain, avg_loss.
    eapply zip_with_Forall; [exact rs_entry| |];
      (apply rolling_mean_nonneg; [lia|]);
      [apply RSI_gain_nonneg|apply RSI_loss_nonneg]. }
  destruct (proj1 (Forall_forall _ _) H r Hr) as [-> | Hn].
  - left. reflexivity.
  - right. apply rsi_of_rs_range, Hn.
Qed.

Lemma latest_rsi_of_cases (rsi : list cell) :
  latest_rsi_of rsi = of_Z 50
  \/ (In (latest_rsi_of rsi) rsi /\ isna (latest_rsi_of rsi) = false).
Proof.
  unfold latest_rsi_of.
  destruct (last_defined_split rsi)
    as [[_ Hd] | (pre & v & suf & Hs & Hv & _ & Hd)]; rewrite Hd.
  - now left.
  - right. rewrite iloc_last_snoc.
    destruct (dropna_series pre ++ [v]) eqn:E.
    + destruct (dropna_series pre); discriminate.
    + split; [|exact Hv]. rewrite Hs. apply in_or_app. right. now left.
Qed.

(** X8: whatever the table, the RSI handed to the scorer and to the signal
    functions is a number between 0 and 100: never NaN and never infinite. *)
Theorem latest_rsi_is_a_number_in_0_100 (data : DataFrame) :
  exists q, latest_rsi data = Fin q /\ (0 <= q <= 100)%Q.
Proof.
  unfold latest_rsi.
  destruct (latest_rsi_of_cases (RSI data)) as [-> | [Hin Hna]].
  - exists (inject_Z 50). split; [reflexivity|].
    change (inject_Z 50) with 50%Q. lra.
  - destruct (proj1 (Forall_forall _ _) (RSI_entries data) _ Hin)
      as [E | (q & E & Hq)].
    + rewrite E in Hna. discriminate.
    + exists q. split; assumption.
Qed.

Lemma below_30_below_50 (r : cell) :
  (r <? of_Z 30)%cell = true -> (r <? of_Z 50)%cell = true.
Proof.
  destruct r as [| | |a]; simpl; try congruence.
  intro H. apply Qltb_lt in H. apply Qltb_lt.
  change (inject_Z 30) with 30%Q in H. change (inject_Z 50) with 50%Q. lra.
Qed.

Lemma above_0_above_minus_5 (d : cell) :
  (d >? of_Z 0)%cell = true -> (d >? of_Z (-5))%cell = true.
Proof.
  unfold Cell.gtb. destruct d as [| | |a]; simpl; try congruence.
  intro H. apply Qltb_lt in H. apply Qltb_lt.
  change (inject_Z 0) with 0%Q in H. change (inject_Z (-5)) with (-5)%Q. lra.
Qed.

(** X9: the score is at most 4; the meter says Strong Buy exactly when the
    RSI used is below 30 and SMA20 - SMA50 is above 0, and Sell exactly when
    the RSI is not below 50 and the difference is not above -5 (a NaN
    difference counts as not above). *)
Theorem meter_extremes (latest_rsi sma_diff : cell) :
  score_of latest_rsi sma_diff <= 4
  /\ (meter_of (score_of latest_rsi sma_diff) = StrongBuy <->
        (latest_rsi <? of_Z 30)%cell = true
        /\ (sma_diff >? of_Z 0)%cell = true)
  /\ (meter_of (score_of latest_rsi sma_diff) = Sell <->
        (latest_rsi <? of_Z 50)%cell = false
        /\ (sma_diff >? of_Z (-5))%cell = false).
Proof.
  pose proof (@below_30_below_50 latest_rsi) as Hr.
  pose proof (@above_0_above_minus_5 sma_diff) as Hd.
  unfold score_of.
  destruct (latest_rsi <? of_Z 30)%cell, (latest_rsi <? of_Z 50)%cell,
           (sma_diff >? of_Z 0)%cell, (sma_diff >? of_Z (-5))%cell;
    simpl; (split; [lia|]); split; split;
    try (intros [? ?]); try intro; try discriminate; try tauto;
    try (specialize (Hr eq_refl); discriminate);
    try (specialize (Hd eq_refl); discriminate).
Qed.

Lemma Qltb_mono_l (a b c : Q) :
  (a <= b)%Q -> Qltb b c = true -> Qltb a c = true.
Proof.
  intros H Hb. apply Qltb_lt in Hb. apply Qltb_lt. lra.
Qed.

Lemma Qltb_mono_r (a b c : Q) :
  (a <= b)%Q -> Qltb c a = true -> Qltb c b = true.
Proof.
  intros H Hb. apply Qltb_lt in Hb. apply Qltb_lt. lra.
Qed.

(** X10: on numbers the score is monotone: a lower RSI together with a
    higher SMA20 - SMA50 never gives a lower score. *)
Theorem score_is_monotone (a b x y : Q) :
  (a <= b)%Q -> (x <= y)%Q ->
  score_of (Fin b) (Fin x) <= score_of (Fin a) (Fin y).
Proof.
  intros Hab Hxy. unfold score_of, Cell.gtb. simpl.
  pose proof (@Qltb_mono_l a b (inject_Z 30) Hab) as H30.
  pose proof (@Qltb_mono_l a b (inject_Z 50) Hab) as H50.
  pose proof (@Qltb_mono_r x y (inject_Z 0) Hxy) as H0.
  pose proof (@Qltb_mono_r x y (inject_Z (-5)) Hxy) as H5.
  pose proof (@below_30_below_50 (Fin a)) as Ha. simpl in Ha.
  pose proof (@above_0_above_minus_5 (Fin y)) as Hy.
  unfold Cell.gtb in Hy. simpl in Hy.
  destruct (Qltb b (inject_Z 30)), (Qltb b (inject_Z 50)),
           (Qltb a (inject_Z 30)), (Qltb a (inject_Z 50)),
           (Qltb (inject_Z 0) x), (Qltb (inject_Z (-5)) x),
           (Qltb (inject_Z 0) y), (Qltb (inject_Z (-5)) y);
    simpl; try lia;
    try (specialize (H30 eq_refl); discriminate);
    try (specialize (H50 eq_refl); discriminate);
    try (specialize (H0 eq_refl); discriminate);
    try (specialize (H5 eq_refl); discriminate);
    try (specialize (Ha eq_refl); discriminate);
    try (specialize (Hy eq_refl); discriminate).
Qed.

Lemma score_is_monotone_witness :
  score_of (Fin 60) (Fin (-10)) <= score_of (Fin 20) (Fin 3).
Proof.
  apply (@score_is_monotone 20 60 (-10) 3); vm_compute; discriminate.
Defined.

(** ** Returns, volume and volatility (lines 190-200) *)

(** [s.shift(p)]: the column moved down by [p] rows, NaN on top. *)
Definition shift (p : nat) (s : list cell) : list cell :=
  firstn (List.length s) (repeat NaN p ++ s).

(** [s.pct_change(periods=p)]: [s / s.shift(p) - 1].  The fill step that
    precedes the division leaves a column without NaN unchanged, and the
    Close column has none after line 50. *)
Definition pct_change (p : nat) (s : list cell) : list cell :=
  map (fun x => (x - c1)%cell) (zip_with Cell.div s (shift p s)).

Definition Daily_Return (data : DataFrame) : list cell :=
  pct_change 1 (column Close data).

Definition Return_7D (data : DataFrame) : list cell :=
  pct_change 7 (column Close data).

Definition Return_30D (data : DataFrame) : list cell :=
  pct_change 30 (column Close data).

(** [s.iloc[-1] * 100 if not pd.isna(s.iloc[-1]) else 0]; [None] stands for
    the IndexError of [iloc[-1]] on an empty column. *)
Definition latest_percent (s : list cell) : option cell :=
  match iloc_last s with
  | None => None
  | Some x => Some (if negb (isna x) then (x * c100)%cell else of_Z 0)
  end.

Definition latest_close (data : DataFrame) : option cell :=
  iloc_last (column Close data).

Definition return_1d (data : DataFrame) : option cell :=
  latest_percent (Daily_Return data).

Definition return_7d (data : DataFrame) : option cell :=
  latest_percent (Return_7D data).

Definition return_30d (data : DataFrame) : option cell :=
  latest_percent (Return_30D data).

(** [Series.std()]: sample standard deviation of the entries that are not
    NaN. *)
Definition series_std (sqrtQ : Q -> Q) (s : list cell) : cell :=
  std sqrtQ (dropna_series s).

Definition volatility (sqrtQ : Q -> Q) (data : DataFrame) : cell :=
  (series_std sqrtQ (Daily_Return data) * c100)%cell.

(** Rounding of a rational to the nearest integer, halves to the even
    neighbour. *)
Definition Qrint (q : Q) : Z :=
  let n := Qnum q in
  let d := Zpos (Qden q) in
  let f := (n / d)%Z in
  let r2 := (2 * (n mod d))%Z in
  if (r2 <? d)%Z then f
  else if (d <? r2)%Z then (f + 1)%Z
  else if Z.even f then f else (f + 1)%Z.

(** [round(x, 2)] on a float: NaN and the infinities pass through. *)
Definition round2 (c : cell) : cell :=
  match c with
  | Fin q => Fin (inject_Z (Qrint (q * 100)) / 100)%Q
  | other => other
  end.

Definition avg_volume (data : DataFrame) : option cell :=
  option_map round2 (iloc_last (rolling_mean 14 (column Volume data))).

Definition vol_now (data : DataFrame) : option cell :=
  iloc_last (column Volume data).

(** ** Signal functions (lines 206-238) *)

Inductive Signal : Type :=
| BuyHighMomentum | SellHighDrop | HoldSignal
| BuyOversold | BuyBullishCrossover | SellSignal
| StrongBuyUptrend | ExitSignal.

(** The text of each signal, without its leading pictogram. *)
Definition signal_text (s : Signal) : string :=
  match s with
  | BuyHighMomentum => "Buy (High Momentum)"
  | SellHighDrop => "Sell (High Drop)"
  | HoldSignal => "Hold"
  | BuyOversold => "Buy (Oversold)"
  | BuyBullishCrossover => "Buy (Bullish Crossover)"
  | SellSignal => "Sell"
  | StrongBuyUptrend => "Strong Buy (Uptrend)"
  | ExitSignal => "Exit"
  end.

Definition c1_5 : cell := Fin (3 # 2).

Definition get_intraday_signal (ret_1d vol vol_now avg_vol : cell) : Signal :=
  if (ret_1d >? of_Z 1)%cell && (vol_now >? c1_5 * avg_vol)%cell
  then BuyHighMomentum
  else if (ret_1d <? of_Z (-1))%cell && (vol_now >? c1_5 * avg_vol)%cell
  then SellHighDrop
  else HoldSignal.

Definition get_short_term_signal (rsi sma20 sma50 ret_7d : cell) : Signal :=
  if (rsi <? of_Z 30)%cell then BuyOversold
  else if (sma20 >? sma50)%cell && (ret_7d >? of_Z 1)%cell
  then BuyBullishCrossover
  else if (rsi >? of_Z 70)%cell || (ret_7d <? of_Z (-1))%cell
  then SellSignal
  else HoldSignal.

Definition get_long_term_signal (ret_30d sma20 sma50 rsi : cell) : Signal :=
  if (ret_30d >? of_Z 5)%cell && (sma20 >? sma50)%cell
     && (rsi <? of_Z 70)%cell
  then StrongBuyUptrend
  else if (ret_30d <? of_Z (-5))%cell || (rsi >? of_Z 80)%cell
  then ExitSignal
  else HoldSignal.

(** Sequencing of steps that may raise. *)
Definition bind {A B : Type} (x : option A) (k : A -> option B) : option B :=
  match x with
  | Some a => k a
  | None => None
  end.

Notation "x <- e ;; k" := (bind e (fun x => k))
  (at level 61, e at next level, right associativity).

(** Lines 236-238, on the values computed at lines 194-200. *)
Definition intraday_signal (sqrtQ : Q -> Q) (data : DataFrame)
    : option Signal :=
  _ <- latest_close data ;;
  r1 <- return_1d data ;;
  avg <- avg_volume data ;;
  now_ <- vol_now data ;;
  Some (get_intraday_signal r1 (volatility sqrtQ data) now_ avg).

Definition short_term_signal (data : DataFrame) : option Signal :=
  _ <- latest_close data ;;
  r7 <- return_7d data ;;
  s20 <- iloc_last (SMA20 data) ;;
  s50 <- iloc_last (SMA50 data) ;;
  Some (get_short_term_signal (latest_rsi data) s20 s50 r7).

Definition long_term_signal (data : DataFrame) : option Signal :=
  _ <- latest_close data ;;
  r30 <- return_30d data ;;
  s20 <- iloc_last (SMA20 data) ;;
  s50 <- iloc_last (SMA50 data) ;;
  Some (get_long_term_signal r30 s20 s50 (latest_rsi data)).

(** ** Signals on empty and short tables *)

Lemma shift_length (p : nat) (s : list cell) :
  List.length (shift p s) = List.length s.
Proof.
  unfold shift. rewrite length_firstn, length_app, repeat_length. lia.
Qed.

Lemma pct_change_length (p : nat) (s : list cell) :
  List.length (pct_change p s) = List.length s.
Proof.
  unfold pct_change. rewrite length_map, zip_with_length; [reflexivity|].
  now rewrite shift_length.
Qed.

Lemma at_shift_top (p : nat) (s : list cell) (i : nat) :
  i < p -> at_ (shift p s) i = NaN.
Proof.
  intro Hi. unfold shift, at_.
  destruct (Nat.lt_ge_cases i (List.length s)) as [H | H].
  - rewrite nth_firstn.
    replace (i <? List.length s) with true by (symmetry; now apply Nat.ltb_lt).
    rewrite app_nth1 by (rewrite repeat_length; exact Hi).
    apply nth_repeat.
  - apply nth_overflow. rewrite length_firstn. lia.
Qed.

Lemma at_shift_below (p : nat) (s : list cell) (i : nat) :
  p <= i -> i < List.length s -> at_ (shift p s) i = at_ s (i - p).
Proof.
  intros Hp Hi. unfold shift, at_. rewrite nth_firstn.
  replace (i <? List.length s) with true by (symmetry; now apply Nat.ltb_lt).
  rewrite app_nth2 by (rewrite repeat_length; exact Hp).
  now rewrite repeat_length.
Qed.

Lemma at_pct_change (p : nat) (s : list cell) (i : nat) :
  i < List.length s ->
  at_ (pct_change p s) i = (at_ s i / at_ (shift p s) i - c1)%cell.
Proof.
  intro Hi. unfold pct_change.
  rewrite at_map by (rewrite zip_with_length; [exact Hi|now rewrite shift_length]).
  rewrite at_zip_with; [reflexivity|now rewrite shift_length|exact Hi].
Qed.

Lemma div_nan_r (a : cell) : (a / NaN)%cell = NaN.
Proof. destruct a; reflexivity. Qed.

Lemma nonempty_length (A : Type) (l : list A) : 1 <= List.length l -> l <> [].
Proof. intros H E. subst. simpl in H. lia. Qed.

(** With at most [p] rows the latest [p]-period return is NaN and the script
    reports 0. *)
Lemma latest_percent_short (p : nat) (s : list cell) :
  1 <= List.length s -> List.length s <= p ->
  latest_percent (pct_change p s) = Some (of_Z 0).
Proof.
  intros H1 Hp. unfold latest_percent.
  rewrite iloc_last_at
    by (apply nonempty_length; now rewrite pct_change_length).
  rewrite pct_change_length, at_pct_change by lia.
  rewrite at_shift_top by lia. rewrite div_nan_r. reflexivity.
Qed.

Lemma latest_percent_some (p : nat) (s : list cell) :
  1 <= List.length s -> exists r, latest_percent (pct_change p s) = Some r.
Proof.
  intro H. unfold latest_percent.
  destruct (@iloc_last_some (pct_change p s)) as [a ->];
    [now rewrite pct_change_length|eauto].
Qed.

Lemma column_length (f : Row -> cell) (data : DataFrame) :
  List.length (column f data) = List.length data.
Proof. apply length_map. Qed.

(** X11: the three signals are produced exactly when the table has a row; on
    an empty table the [iloc[-1]] of line 194 raises and none is reached. *)
Theorem signals_need_a_row (sqrtQ : Q -> Q) (data : DataFrame) :
  (intraday_signal sqrtQ data = None <-> data = [])
  /\ (short_term_signal data = None <-> data = [])
  /\ (long_term_signal data = None <-> data = []).
Proof.
  destruct data as [|r rest].
  - repeat split; reflexivity.
  - set (data := r :: rest).
    assert (H1 : 1 <= List.length data) by (simpl; lia).
    destruct (@iloc_last_some (column Close data)) as [c Hc];
      [now rewrite column_length|].
    destruct (@iloc_last_some (column Volume data)) as [v Hv];
      [now rewrite column_length|].
    destruct (@iloc_last_some (rolling_mean 14 (column Volume data)))
      as [av Hav];
      [unfold rolling_mean; now rewrite rolling_length, column_length|].
    destruct (@iloc_last_some (SMA20 data)) as [s20 H20];
      [now rewrite SMA20_length|].
    destruct (@iloc_last_some (SMA50 data)) as [s50 H50];
      [unfold SMA50, rolling_mean; now rewrite rolling_length, column_length|].
    destruct (@latest_percent_some 1 (column Close data)) as [r1 Hr1];
      [now rewrite column_length|].
    destruct (@latest_percent_some 7 (column Close data)) as [r7 Hr7];
      [now rewrite column_length|].
    destruct (@latest_percent_some 30 (column Close data)) as [r30 Hr30];
      [now rewrite column_length|].
    unfold intraday_signal, short_term_signal, long_term_signal,
      latest_close, return_1d, return_7d, return_30d, avg_volume, vol_now,
      Daily_Return, Return_7D, Return_30D.
    rewrite Hc, Hv, Hav, H20, H50, Hr1, Hr7, Hr30. simpl.
    repeat split; intro; discriminate.
Qed.

Lemma map_const_seq (c : cell) (a n : nat) :
  map (fun _ => c) (seq a n) = repeat c n.
Proof.
  revert a. induction n as [|n IH]; intro a; simpl; [reflexivity|].
  now rewrite IH.
Qed.

Lemma rolling_all_nan (w : nat) (agg : list cell -> cell) (s : list cell) :
  List.length s < w -> rolling w agg s = repeat NaN (List.length s).
Proof.
  intro H. rewrite <- (map_const_seq NaN 0). unfold rolling.
  apply map_ext_in. intros i Hi. apply in_seq in Hi.
  pose proof (count_notna_le (window_at w s i)) as Hc.
  rewrite window_at_length in Hc by lia.
  replace (count_notna (window_at w s i) <? w) with true
    by (symmetry; apply Nat.ltb_lt; lia).
  reflexivity.
Qed.

Lemma zip_with_repeat (f : cell -> cell -> cell) (a b : cell) (n : nat) :
  zip_with f (repeat a n) (repeat b n) = repeat (f a b) n.
Proof. induction n as [|n IH]; simpl; [reflexivity|]. now rewrite IH. Qed.

Lemma dropna_series_all_nan (n : nat) : dropna_series (repeat NaN n) = [].
Proof. induction n as [|n IH]; simpl; [reflexivity|exact IH]. Qed.

(** Below 14 rows the RSI column is NaN throughout. *)
Lemma RSI_all_nan (data : DataFrame) :
  List.length data < 14 -> RSI data = repeat NaN (List.length data).
Proof.
  intro H. unfold RSI, rs, avg_gain, avg_loss, rolling_mean.
  rewrite !rolling_all_nan by (rewrite ?RSI_gain_length, ?RSI_loss_length; exact H).
  rewrite RSI_gain_length, RSI_loss_length, zip_with_repeat, map_repeat.
  reflexivity.
Qed.

Lemma sma_diff_short (data : DataFrame) :
  1 <= List.length data -> List.length data < 50 -> sma_diff data = NaN.
Proof.
  intros H1 H50.
  unfold sma_diff, sma_diff_of, SMA20, SMA50, rolling_mean.
  rewrite (@iloc_last_rolling_short 50)
    by (rewrite column_length; assumption).
  destruct (@iloc_last_some (rolling 20 mean (column Close data)))
    as [a ->].
  { now rewrite rolling_length, column_length. }
  apply sub_nan_r.
Qed.

Lemma iloc_last_SMA50_short (data : DataFrame) :
  1 <= List.length data -> List.length data < 50 ->
  iloc_last (SMA50 data) = Some NaN.
Proof.
  intros H1 H50. unfold SMA50, rolling_mean.
  apply iloc_last_rolling_short; rewrite column_length; assumption.
Qed.

Lemma gtb_nan_r (a : cell) : (a >? NaN)%cell = false.
Proof. reflexivity. Qed.

(** X12: on a table of 1 to 49 rows SMA50 is NaN, so the short-term signal
    is never the bullish crossover and the long-term signal is never the
    strong buy: the first depends on the RSI and the 7-day return only, the
    second on the RSI and the 30-day return only. *)
Theorem signals_on_table_shorter_than_50 (data : DataFrame) :
  1 <= List.length data -> List.length data < 50 ->
  exists r7 r30,
    return_7d data = Some r7 /\ return_30d data = Some r30
    /\ short_term_signal data
       = Some (if (latest_rsi data <? of_Z 30)%cell then BuyOversold
               else if (latest_rsi data >? of_Z 70)%cell
                       || (r7 <? of_Z (-1))%cell
               then SellSignal else HoldSignal)
    /\ long_term_signal data
       = Some (if (r30 <? of_Z (-5))%cell
                  || (latest_rsi data >? of_Z 80)%cell
               then ExitSignal else HoldSignal).
Proof.
  intros H1 H50.
  destruct (@latest_percent_some 7 (column Close data)) as [r7 Hr7];
    [now rewrite column_length|].
  destruct (@latest_percent_some 30 (column Close data)) as [r30 Hr30];
    [now rewrite column_length|].
  destruct (@iloc_last_some (column Close data)) as [c Hc];
    [now rewrite column_length|].
  destruct (@iloc_last_some (SMA20 data)) as [s20 H20];
    [now rewrite SMA20_length|].
  exists r7, r30.
  unfold short_term_signal, long_term_signal, latest_close,
    return_7d, return_30d, Return_7D, Return_30D.
  rewrite Hc, Hr7, Hr30, H20, (@iloc_last_SMA50_short data H1 H50). simpl.
  unfold get_short_term_signal, get_long_term_signal.
  rewrite gtb_nan_r. simpl. rewrite andb_false_r. auto.
Qed.

Lemma signals_on_table_shorter_than_50_witness :
  exists r7 r30,
    return_7d twenty_rising = Some r7 /\ return_30d twenty_rising = Some r30
    /\ short_term_signal twenty_rising
       = Some (if (latest_rsi twenty_rising <? of_Z 30)%cell then BuyOversold
               else if (latest_rsi twenty_rising >? of_Z 70)%cell
                       || (r7 <? of_Z (-1))%cell
               then SellSignal else HoldSignal)
    /\ long_term_signal twenty_rising
       = Some (if (r30 <? of_Z (-5))%cell
                  || (latest_rsi twenty_rising >? of_Z 80)%cell
               then ExitSignal else HoldSignal).
Proof.
  apply (@signals_on_table_shorter_than_50 twenty_rising); vm_compute; lia.
Defined.

Lemma signals_on_short_inputs (data : DataFrame) :
  1 <= List.length data ->
  exists c v s20,
    iloc_last (column Close data) = Some c
    /\ iloc_last (column Volume data) = Some v
    /\ iloc_last (SMA20 data) = Some s20.
Proof.
  intro H1.
  destruct (@iloc_last_some (column Close data)) as [c Hc];
    [now rewrite column_length|].
  destruct (@iloc_last_some (column Volume data)) as [v Hv];
    [now rewrite column_length|].
  destruct (@iloc_last_some (SMA20 data)) as [s20 H20];
    [now rewrite SMA20_length|].
  eauto 6.
Qed.

(** Five rows with a falling close. *)
Definition five_falling : DataFrame :=
  bars [(50, 50); (40, 40); (30, 30); (20, 20); (10, 10)]%Z.

(** X13: on a table of 1 to 13 rows no RSI exists yet and the fallback 50
    is used: the score is 0 and the meter says Sell, the intraday signal is
    Hold (the 14-day average volume is NaN), the long-term signal is Hold,
    and the short-term signal is Hold or Sell, Hold when the table has at
    most 7 rows. *)
Theorem verdicts_before_14_rows (sqrtQ : Q -> Q) (data : DataFrame) :
  1 <= List.length data -> List.length data < 14 ->
  latest_rsi data = of_Z 50
  /\ score data = 0 /\ meter data = Sell
  /\ intraday_signal sqrtQ data = Some HoldSignal
  /\ long_term_signal data = Some HoldSignal
  /\ (short_term_signal data = Some HoldSignal
      \/ short_term_signal data = Some SellSignal)
  /\ (List.length data <= 7 -> short_term_signal data = Some HoldSignal).
Proof.
  intros H1 H14.
  assert (Hrsi : latest_rsi data = of_Z 50).
  { unfold latest_rsi, latest_rsi_of.
    now rewrite RSI_all_nan, dropna_series_all_nan by exact H14. }
  assert (Hd : sma_diff data = NaN) by (apply sma_diff_short; lia).
  destruct (@signals_on_short_inputs data) as (c & v & s20 & Hc & Hv & H20).
  { exact H1. }
  assert (H50 : iloc_last (SMA50 data) = Some NaN)
    by (apply iloc_last_SMA50_short; lia).
  assert (Hav : iloc_last (rolling_mean 14 (column Volume data)) = Some NaN)
    by (apply iloc_last_rolling_short; rewrite column_length; lia).
  assert (Hr30 : return_30d data = Some (of_Z 0))
    by (apply latest_percent_short; rewrite column_length; lia).
  destruct (@latest_percent_some 1 (column Close data)) as [r1 Hr1];
    [now rewrite column_length|].
  destruct (@latest_percent_some 7 (column Close data)) as [r7 Hr7];
    [now rewrite column_length|].
  split; [exact Hrsi|].
  split; [unfold score; rewrite Hrsi, Hd; reflexivity|].
  split; [unfold meter, score; rewrite Hrsi, Hd; reflexivity|].
  split.
  { unfold intraday_signal, latest_close, return_1d, Daily_Return,
      avg_volume, vol_now.
    rewrite Hc, Hr1, Hav, Hv. simpl.
    unfold get_intraday_signal.
    replace (c1_5 * NaN)%cell with NaN by reflexivity.
    rewrite gtb_nan_r, !andb_false_r. reflexivity. }
  split.
  { unfold long_term_signal, latest_close. rewrite Hc, Hr30, H20, H50, Hrsi.
    reflexivity. }
  assert (Hshort : short_term_signal data
                   = Some (if (r7 <? of_Z (-1))%cell then SellSignal
                           else HoldSignal)).
  { unfold short_term_signal, latest_close, return_7d, Return_7D.
    rewrite Hc, Hr7, H20, H50, Hrsi. simpl.
    unfold get_short_term_signal.
    replace (of_Z 50 <? of_Z 30)%cell with false by reflexivity.
    replace (of_Z 50 >? of_Z 70)%cell with false by reflexivity.
    rewrite gtb_nan_r. reflexivity. }
  split.
  { rewrite Hshort. destruct (r7 <? of_Z (-1))%cell; auto. }
  intro H7. rewrite Hshort.
  assert (E : return_7d data = Some (of_Z 0))
    by (apply latest_percent_short; rewrite column_length; lia).
  unfold return_7d, Return_7D in E. rewrite Hr7 in E.
  injection E as ->. reflexivity.
Qed.

Lemma verdicts_before_14_rows_witness :
  latest_rsi five_falling = of_Z 50
  /\ score five_falling = 0 /\ meter five_falling = Sell
  /\ intraday_signal sqrt_floor five_falling = Some HoldSignal
  /\ long_term_signal five_falling = Some HoldSignal
  /\ (short_term_signal five_falling = Some HoldSignal
      \/ short_term_signal five_falling = Some SellSignal)
  /\ (List.length five_falling <= 7 ->
      short_term_signal five_falling = Some HoldSignal).
Proof.
  apply (@verdicts_before_14_rows sqrt_floor five_falling); vm_compute; lia.
Defined.

(** ** Meter and signals together *)

Lemma score_4_inv (r d : cell) :
  meter_of (score_of r d) = StrongBuy ->
  (r <? of_Z 30)%cell = true /\ (d >? of_Z 0)%cell = true.
Proof.
  unfold score_of.
  destruct (r <? of_Z 30)%cell, (r <? of_Z 50)%cell,
           (d >? of_Z 0)%cell, (d >? of_Z (-5))%cell;
    simpl; intro H; try discriminate; auto.
Qed.

(** X14: the meter can say Strong Buy only on a table of at least 50 rows
    (SMA50 must have a value), and whenever it does, the short-term signal is
    Buy (Oversold). *)
Theorem strong_buy_needs_50_rows_and_is_oversold (data : DataFrame) :
  meter data = StrongBuy ->
  50 <= List.length data /\ short_term_signal data = Some BuyOversold.
Proof.
  intro H. unfold meter, score in H. apply score_4_inv in H as [Hr Hd].
  assert (Hn : 50 <= List.length data).
  { destruct (Nat.le_gt_cases 50 (List.length data)) as [Hn | Hn];
      [exact Hn|exfalso].
    destruct data as [|r rest]; [vm_compute in Hd; discriminate|].
    rewrite sma_diff_short in Hd by (simpl in *; lia).
    discriminate. }
  split; [exact Hn|].
  destruct (@signals_on_short_inputs data) as (c & v & s20 & Hc & Hv & H20);
    [lia|].
  destruct (@iloc_last_some (SMA50 data)) as [s50 H50].
  { unfold SMA50, rolling_mean. rewrite rolling_length, column_length. lia. }
  destruct (@latest_percent_some 7 (column Close data)) as [r7 Hr7];
    [rewrite column_length; lia|].
  unfold short_term_signal, latest_close, return_7d, Return_7D.
  rewrite Hc, Hr7, H20, H50. simpl.
  unfold get_short_term_signal. now rewrite Hr.
Qed.

(** Fifty closes rising by ten a day, then fourteen falling by one. *)
Definition rally_then_dip : DataFrame :=
  bars (map (fun k => ((10 * Z.of_nat k)%Z, (10 * Z.of_nat k)%Z)) (seq 1 50)
        ++ map (fun k => ((500 - Z.of_nat k)%Z, (500 - Z.of_nat k)%Z))
               (seq 1 14)).

Lemma strong_buy_needs_50_rows_and_is_oversold_witness :
  50 <= List.length rally_then_dip
  /\ short_term_signal rally_then_dip = Some BuyOversold.
Proof.
  apply (@strong_buy_needs_50_rows_and_is_oversold rally_then_dip).
  vm_compute. reflexivity.
Defined.

(** ** Returns on a sanitized table *)

Lemma at_close (data : DataFrame) (i : nat) :
  sanitized data -> i < List.length data ->
  at_ (column Close data) i = Fin (close_q data i).
Proof.
  intros Hs Hi. unfold close_q. apply is_fin_to_Q.
  apply (proj1 (Forall_forall _ _) (sanitized_close Hs)).
  unfold at_. apply nth_In. now rewrite column_length.
Qed.

Lemma Qsgn_nonzero_div (x y : Q) :
  ~ (y == 0)%Q -> (Fin x / Fin y)%cell = Fin (x / y)%Q.
Proof.
  intro H. simpl. destruct (Qsgn y) eqn:E; try reflexivity.
  exfalso. apply H. unfold Qsgn in E. apply Qeq_alt in E. now symmetry.
Qed.

(** X15: on a sanitized table with more than [p] rows, when the close [p]
    rows before the last is not zero, the latest [p]-period return in
    percent is [(close[last] / close[last-p] - 1) * 100]; the 1-day, 7-day
    and 30-day returns of the script are the cases 1, 7 and 30. *)
Theorem latest_return_on_sanitized_table (data : DataFrame) (p : nat) :
  sanitized data -> p < List.length data ->
  ~ (close_q data (List.length data - 1 - p) == 0)%Q ->
  exists q,
    latest_percent (pct_change p (column Close data)) = Some (Fin q)
    /\ (q == (close_q data (List.length data - 1)
              / close_q data (List.length data - 1 - p) - 1) * 100)%Q
    /\ (p = 1 -> return_1d data = Some (Fin q))
    /\ (p = 7 -> return_7d data = Some (Fin q))
    /\ (p = 30 -> return_30d data = Some (Fin q)).
Proof.
  intros Hs Hp Hz.
  set (n := List.length data) in *.
  assert (E : latest_percent (pct_change p (column Close data))
              = Some (Fin ((close_q data (n - 1) / close_q data (n - 1 - p)
                            + - inject_Z 1) * inject_Z 100))%Q).
  { unfold latest_percent.
    rewrite iloc_last_at
      by (apply nonempty_length; rewrite pct_change_length, column_length;
          fold n; lia).
    rewrite pct_change_length, column_length. fold n.
    rewrite at_pct_change by (rewrite column_length; fold n; lia).
    rewrite at_shift_below by (rewrite ?column_length; fold n; lia).
    rewrite !at_close by (try exact Hs; fold n; lia).
    rewrite Qsgn_nonzero_div by exact Hz. reflexivity. }
  eexists. split; [exact E|].
  split; [change (inject_Z 1) with 1%Q; change (inject_Z 100) with 100%Q;
          ring|].
  repeat split; intros ->; exact E.
Qed.

Lemma latest_return_on_sanitized_table_witness :
  exists q,
    latest_percent (pct_change 7 (column Close twenty_rising)) = Some (Fin q)
    /\ (q == (close_q twenty_rising (List.length twenty_rising - 1)
              / close_q twenty_rising (List.length twenty_rising - 1 - 7) - 1)
             * 100)%Q
    /\ (7 = 1 -> return_1d twenty_rising = Some (Fin q))
    /\ (7 = 7 -> return_7d twenty_rising = Some (Fin q))
    /\ (7 = 30 -> return_30d twenty_rising = Some (Fin q)).
Proof.
  apply (@latest_return_on_sanitized_table twenty_rising 7).
  - apply sanitized_forallb. vm_compute; reflexivity.
  - vm_compute. lia.
  - vm_compute. discriminate.
Defined.

(** ** Volatility *)

Lemma std_nil (sqrtQ : Q -> Q) : std sqrtQ [] = NaN.
Proof. reflexivity. Qed.

Lemma std_singleton (sqrtQ : Q -> Q) (x : cell) : std sqrtQ [x] = NaN.
Proof.
  destruct x as [| | |q]; try reflexivity.
  unfold std, sq_dev, mean, sum, of_nat, of_Z. simpl.
  rewrite Qsgn_zero; [reflexivity|].
  change (inject_Z 1) with 1%Q. field.
Qed.

(** X16: on a table of at most two rows there are fewer than two daily
    returns and the volatility is NaN. *)
Theorem volatility_needs_three_rows (sqrtQ : Q -> Q) (data : DataFrame) :
  List.length data <= 2 -> volatility sqrtQ data = NaN.
Proof.
  intro H. unfold volatility, series_std, Daily_Return, column.
  destruct data as [|r1 [|r2 rest]]; try reflexivity.
  - unfold pct_change, shift. simpl. rewrite div_nan_r. reflexivity.
  - destruct rest; [|simpl in H; lia].
    unfold pct_change, shift. simpl.
    rewrite div_nan_r. simpl.
    destruct (notna _); [now rewrite std_singleton|reflexivity].
Qed.

Lemma volatility_needs_three_rows_witness :
  volatility sqrt_floor (bars [(10, 9); (12, 11)]%Z) = NaN.
Proof.
  apply (@volatility_needs_three_rows sqrt_floor). vm_compute. lia.
Defined.

(** ** MACD (lines 281-285) *)

(** The smoothing factor of [ewm(span=...)]: [2 / (span + 1)]. *)
Definition alpha (span : nat) : Q := (2 / inject_Z (Z.of_nat span + 1))%Q.

(** [s.ewm(span=..., adjust=False).mean()] on a column without NaN (Close
    after line 50, and the MACD line computed from it): the first value
    seeds the average, then [y = (1 - alpha) * y_prev + alpha * x]. *)
Fixpoint ewm_from (a : cell) (prev : cell) (s : list cell) : list cell :=
  match s with
  | [] => []
  | x :: rest =>
      let y := ((c1 - a) * prev + a * x)%cell in
      y :: ewm_from a y rest
  end.

Definition ewm_mean (span : nat) (s : list cell) : list cell :=
  match s with
  | [] => []
  | x :: rest => x :: ewm_from (Fin (alpha span)) x rest
  end.

Definition MACD (data : DataFrame) : list cell :=
  zip_with Cell.sub (ewm_mean 12 (column Close data))
                    (ewm_mean 26 (column Close data)).

Definition MACD_signal (data : DataFrame) : list cell :=
  ewm_mean 9 (MACD data).

Definition MACD_hist (data : DataFrame) : list cell :=
  zip_with Cell.sub (MACD data) (MACD_signal data).

(** The same recursion on rationals. *)
Fixpoint ewm_Q_from (a prev : Q) (qs : list Q) : list Q :=
  match qs with
  | [] => []
  | x :: rest =>
      let y := ((inject_Z 1 + - a) * prev + a * x)%Q in
      y :: ewm_Q_from a y rest
  end.

Definition ewm_Q (a : Q) (qs : list Q) : list Q :=
  match qs with
  | [] => []
  | x :: rest => x :: ewm_Q_from a x rest
  end.

Definition sub_Q (xs ys : list Q) : list Q :=
  map (fun xy => (fst xy + - snd xy)%Q) (combine xs ys).

Lemma ewm_from_Fin (a prev : Q) (qs : list Q) :
  ewm_from (Fin a) (Fin prev) (map Fin qs) = map Fin (ewm_Q_from a prev qs).
Proof.
  revert prev. induction qs as [|x qs IH]; intro prev; simpl;
    [reflexivity|].
  f_equal. apply IH.
Qed.

Lemma ewm_mean_Fin (span : nat) (qs : list Q) :
  ewm_mean span (map Fin qs) = map Fin (ewm_Q (alpha span) qs).
Proof.
  destruct qs as [|x qs]; simpl; [reflexivity|].
  f_equal. apply ewm_from_Fin.
Qed.

Lemma zip_with_sub_Fin (xs ys : list Q) :
  zip_with Cell.sub (map Fin xs) (map Fin ys) = map Fin (sub_Q xs ys).
Proof.
  unfold sub_Q. revert ys.
  induction xs as [|x xs IH]; intros [|y ys]; simpl; try reflexivity.
  f_equal. apply IH.
Qed.

Lemma ewm_Q_from_length (a prev : Q) (qs : list Q) :
  List.length (ewm_Q_from a prev qs) = List.length qs.
Proof.
  revert prev. induction qs as [|x qs IH]; intro prev; simpl;
    [reflexivity|]. now rewrite IH.
Qed.

Lemma ewm_Q_length (a : Q) (qs : list Q) :
  List.length (ewm_Q a qs) = List.length qs.
Proof. destruct qs; simpl; [reflexivity|]. now rewrite ewm_Q_from_length. Qed.

Lemma sub_Q_length (xs ys : list Q) :
  List.length xs = List.length ys ->
  List.length (sub_Q xs ys) = List.length xs.
Proof.
  intro H. unfold sub_Q. rewrite length_map, length_combine. lia.
Qed.

Lemma alpha_range (span : nat) :
  1 <= span -> (0 < alpha span /\ alpha span <= 1)%Q.
Proof.
  intro H. unfold alpha.
  assert (Hd : (0 < inject_Z (Z.of_nat span + 1))%Q).
  { change 0%Q with (inject_Z 0). rewrite <- Zlt_Qlt. lia. }
  split.
  - apply Qlt_shift_div_l; [exact Hd|]. lra.
  - apply Qle_shift_div_r; [exact Hd|].
    assert (inject_Z 2 <= inject_Z (Z.of_nat span + 1))%Q
      by (rewrite <- Zle_Qle; lia).
    change (inject_Z 2) with 2%Q in *. lra.
Qed.

(** An exponential average stays between the bounds of its inputs. *)
Lemma ewm_Q_from_bounds (a lo hi prev : Q) (qs : list Q) :
  (0 <= a <= 1)%Q -> (lo <= prev <= hi)%Q ->
  Forall (fun q => lo <= q <= hi)%Q qs ->
  Forall (fun q => lo <= q <= hi)%Q (ewm_Q_from a prev qs).
Proof.
  intros Ha. revert prev.
  induction qs as [|x qs IH]; intros prev Hp Hq; simpl; constructor.
  - inversion_clear Hq as [|? ? Hx _].
    change (inject_Z 1) with 1%Q. split; nra.
  - inversion_clear Hq as [|? ? Hx Hrest].
    apply IH; [|exact Hrest].
    change (inject_Z 1) with 1%Q. split; nra.
Qed.

Lemma ewm_Q_bounds (a lo hi : Q) (qs : list Q) :
  (0 <= a <= 1)%Q ->
  Forall (fun q => lo <= q <= hi)%Q qs ->
  Forall (fun q => lo <= q <= hi)%Q (ewm_Q a qs).
Proof.
  intros Ha Hq. destruct qs as [|x qs]; simpl; [constructor|].
  inversion_clear Hq as [|? ? Hx Hrest].
  constructor; [exact Hx|]. now apply ewm_Q_from_bounds.
Qed.

Lemma sub_Q_bounds (lo hi : Q) (xs ys : list Q) :
  Forall (fun q => lo <= q <= hi)%Q xs ->
  Forall (fun q => lo <= q <= hi)%Q ys ->
  Forall (fun d => - (hi - lo) <= d <= hi - lo)%Q (sub_Q xs ys).
Proof.
  unfold sub_Q. intro Hx. revert ys.
  induction Hx as [|x xs Hx0 _ IH]; intros ys Hy; simpl; [constructor|].
  destruct Hy as [|y ys Hy0 Hy]; simpl; constructor.
  - simpl. lra.
  - now apply IH.
Qed.

(** X17: an exponential average with a span of at least 1 over numbers takes
    a value at every row, the first input at the first row, and never leaves
    the interval spanned by its inputs. *)
Theorem ewm_mean_stays_within_inputs
    (span : nat) (qs : list Q) (lo hi : Q) :
  1 <= span -> Forall (fun q => lo <= q <= hi)%Q qs ->
  exists ys,
    ewm_mean span (map Fin qs) = map Fin ys
    /\ List.length ys = List.length qs
    /\ hd_error ys = hd_error qs
    /\ Forall (fun y => lo <= y <= hi)%Q ys.
Proof.
  intros Hs Hq. exists (ewm_Q (alpha span) qs).
  split; [apply ewm_mean_Fin|].
  split; [apply ewm_Q_length|].
  split; [destruct qs; reflexivity|].
  apply ewm_Q_bounds; [|exact Hq].
  destruct (alpha_range Hs). split; lra.
Qed.

Lemma ewm_mean_stays_within_inputs_witness :
  exists ys,
    ewm_mean 12 (map Fin [3; 5; 4]%Q) = map Fin ys
    /\ List.length ys = List.length [3; 5; 4]%Q
    /\ hd_error ys = hd_error [3; 5; 4]%Q
    /\ Forall (fun y => 3 <= y <= 5)%Q ys.
Proof.
  apply (@ewm_mean_stays_within_inputs 12 [3; 5; 4]%Q 3 5).
  - lia.
  - repeat constructor; simpl; discriminate.
Defined.

(** Every close is a number between [lo] and [hi]. *)
Definition closes_within (lo hi : Q) (data : DataFrame) : Prop :=
  Forall (fun r => exists q, Close r = Fin q /\ (lo <= q <= hi)%Q) data.

Definition close_within_b (lo hi : Q) (r : Row) : bool :=
  match Close r with
  | Fin q => Qle_bool lo q && Qle_bool q hi
  | _ => false
  end.

Lemma closes_within_forallb (lo hi : Q) (data : DataFrame) :
  forallb (close_within_b lo hi) data = true -> closes_within lo hi data.
Proof.
  intro H. apply Forall_forall. intros r Hr.
  pose proof (proj1 (forallb_forall _ _) H r Hr) as Hb.
  unfold close_within_b in Hb.
  destruct (Close r) as [| | |q]; try discriminate.
  apply andb_true_iff in Hb as [H1 H2].
  apply Qle_bool_iff in H1, H2. eauto.
Qed.

Lemma closes_within_column (lo hi : Q) (data : DataFrame) :
  closes_within lo hi data ->
  exists qs, column Close data = map Fin qs
             /\ List.length qs = List.length data
             /\ Forall (fun q => lo <= q <= hi)%Q qs.
Proof.
  induction 1 as [|r data (q & Hq & Hr) _ (qs & E & Hl & Hb)].
  - exists []. repeat split; constructor.
  - exists (q :: qs). simpl. rewrite Hq, E, Hl.
    repeat split. now constructor.
Qed.

(** X18: when every close is a number between [lo] and [hi], the MACD line,
    its signal line and the histogram have a value at every row (no warm-up
    rows); MACD and signal stay within [hi - lo] of zero, the histogram
    within twice that, and the MACD of the first row is zero. *)
Theorem MACD_within_close_range (data : DataFrame) (lo hi : Q) :
  closes_within lo hi data ->
  exists ms ss hs,
    MACD data = map Fin ms /\ MACD_signal data = map Fin ss
    /\ MACD_hist data = map Fin hs
    /\ List.length ms = List.length data
    /\ List.length ss = List.length data
    /\ List.length hs = List.length data
    /\ Forall (fun m => - (hi - lo) <= m <= hi - lo)%Q ms
    /\ Forall (fun s => - (hi - lo) <= s <= hi - lo)%Q ss
    /\ Forall (fun h => - (2 * (hi - lo)) <= h <= 2 * (hi - lo))%Q hs
    /\ (forall m, hd_error ms = Some m -> (m == 0)%Q).
Proof.
  intro H. destruct (closes_within_column H) as (qs & E & Hl & Hb).
  assert (A12 : (0 <= alpha 12 <= 1)%Q)
    by (destruct (@alpha_range 12); [lia|split; lra]).
  assert (A26 : (0 <= alpha 26 <= 1)%Q)
    by (destruct (@alpha_range 26); [lia|split; lra]).
  assert (A9 : (0 <= alpha 9 <= 1)%Q)
    by (destruct (@alpha_range 9); [lia|split; lra]).
  set (e12 := ewm_Q (alpha 12) qs). set (e26 := ewm_Q (alpha 26) qs).
  set (ms := sub_Q e12 e26). set (ss := ewm_Q (alpha 9) ms).
  assert (Em : MACD data = map Fin ms).
  { unfold MACD. rewrite E, !ewm_mean_Fin. apply zip_with_sub_Fin. }
  assert (Es : MACD_signal data = map Fin ss).
  { unfold MACD_signal. rewrite Em. apply ewm_mean_Fin. }
  assert (Lm : List.length ms = List.length data).
  { unfold ms. rewrite sub_Q_length; unfold e12, e26;
      rewrite !ewm_Q_length; congruence. }
  assert (Ls : List.length ss = List.length data)
    by (unfold ss; now rewrite ewm_Q_length).
  assert (Bm : Forall (fun m => - (hi - lo) <= m <= hi - lo)%Q ms)
    by (apply sub_Q_bounds; apply ewm_Q_bounds; assumption).
  assert (Bs : Forall (fun s => - (hi - lo) <= s <= hi - lo)%Q ss)
    by (apply ewm_Q_bounds; assumption).
  exists ms, ss, (sub_Q ms ss).
  split; [exact Em|]. split; [exact Es|].
  split; [unfold MACD_hist; rewrite Em, Es; apply zip_with_sub_Fin|].
  split; [exact Lm|]. split; [exact Ls|].
  split; [rewrite sub_Q_length; congruence|].
  split; [exact Bm|]. split; [exact Bs|].
  split.
  - eapply Forall_impl; [|exact (sub_Q_bounds Bm Bs)].
    cbv beta. intros h Hh. lra.
  - intros m Hm. unfold ms, e12, e26, sub_Q in Hm.
    destruct qs as [|x qs]; simpl in Hm; [discriminate|].
    injection Hm as <-. ring.
Qed.

Lemma MACD_within_close_range_witness :
  exists ms ss hs,
    MACD twenty_rising = map Fin ms /\ MACD_signal twenty_rising = map Fin ss
    /\ MACD_hist twenty_rising = map Fin hs
    /\ List.length ms = List.length twenty_rising
    /\ List.length ss = List.length twenty_rising
    /\ List.length hs = List.length twenty_rising
    /\ Forall (fun m => - (20 - 1) <= m <= 20 - 1)%Q ms
    /\ Forall (fun s => - (20 - 1) <= s <= 20 - 1)%Q ss
    /\ Forall (fun h => - (2 * (20 - 1)) <= h <= 2 * (20 - 1))%Q hs
    /\ (forall m, hd_error ms = Some m -> (m == 0)%Q).
Proof.
  apply (@MACD_within_close_range twenty_rising 1 20).
  apply closes_within_forallb. vm_compute. reflexivity.
Defined.

(** ** Provider symbol (lines 14-20, 339) *)

Open Scope string_scope.

(** [ticker_input] is the text typed by the user after [.upper()]. *)
Definition ticker_of (ticker_input : string) : string :=
  if String.eqb ticker_input "NIFTY" then "^NSEI"
  else ticker_input ++ ".NS".

Definition news_ticker_of (ticker_input : string) : string :=
  if negb (String.eqb ticker_input "NIFTY") then ticker_input else "NSEI".

Lemma append_length (a b : string) :
  String.length (a ++ b) = String.length a + String.length b.
Proof. induction a as [|c a IH]; simpl; [reflexivity|]. now rewrite IH. Qed.

Lemma append_inv_tail (a b s : string) : a ++ s = b ++ s -> a = b.
Proof.
  revert b. induction a as [|c a IH]; intros [|d b] H; simpl in H.
  - reflexivity.
  - apply (f_equal String.length) in H. simpl in H.
    rewrite append_length in H. lia.
  - apply (f_equal String.length) in H. simpl in H.
    rewrite append_length in H. lia.
  - injection H as -> H. f_equal. now apply IH.
Qed.

Lemma suffixed_is_not_index (b : string) : b ++ ".NS" <> "^NSEI".
Proof.
  intro H.
  do 6 (destruct b as [|? b]; simpl in H; try discriminate;
        injection H as ? H; subst).
Qed.

(** X19: the provider symbol determines what was typed: two different
    inputs never map to the same symbol; the symbol differs from the input;
    and it is the news symbol with a caret in front for the index, with
    ".NS" behind otherwise. *)
Theorem ticker_of_is_injective (a b : string) :
  (ticker_of a = ticker_of b -> a = b)
  /\ ticker_of a <> a
  /\ ticker_of a
     = (if String.eqb a "NIFTY" then "^" ++ news_ticker_of a
        else news_ticker_of a ++ ".NS").
Proof.
  unfold ticker_of, news_ticker_of.
  split; [|split].
  - destruct (String.eqb a "NIFTY") eqn:Ea, (String.eqb b "NIFTY") eqn:Eb;
      intro H.
    + apply String.eqb_eq in Ea, Eb. congruence.
    + symmetry in H. now apply suffixed_is_not_index in H.
    + now apply suffixed_is_not_index in H.
    + now apply append_inv_tail in H.
  - destruct (String.eqb a "NIFTY") eqn:Ea.
    + apply String.eqb_eq in Ea. subst. discriminate.
    + intro H. apply (f_equal String.length) in H.
      rewrite append_length in H. simpl in H. lia.
  - destruct (String.eqb a "NIFTY"); reflexivity.
Qed.

Close Scope string_scope.

(** ** A steadily rising market *)

(** Each close is above the one before. *)
Definition strictly_rising (data : DataFrame) : Prop :=
  forall k, k + 1 < List.length data ->
            (close_q data k < close_q data (k + 1))%Q.

Lemma rising_lt (data : DataFrame) (j k : nat) :
  strictly_rising data -> j < k -> k < List.length data ->
  (close_q data j < close_q data k)%Q.
Proof.
  intros Hr Hjk Hk. induction k as [|k IH]; [lia|].
  destruct (Nat.eq_dec j k) as [-> | Hne].
  - replace (S k) with (k + 1) by lia. apply Hr. lia.
  - apply Qlt_trans with (close_q data k); [apply IH; lia|].
    replace (S k) with (k + 1) by lia. apply Hr. lia.
Qed.

Lemma at_diff_from (p : cell) (s : list cell) (k : nat) :
  k < List.length s ->
  at_ (diff_from p s) k
  = (at_ s k - (if k =? 0 then p else at_ s (k - 1)))%cell.
Proof.
  unfold at_. revert p k.
  induction s as [|x s IH]; intros p k Hk; simpl in Hk; [lia|].
  destruct k as [|k]; [reflexivity|]. simpl.
  rewrite IH by lia. rewrite Nat.sub_0_r.
  destruct k as [|k]; simpl; [reflexivity|]. now rewrite Nat.sub_0_r.
Qed.

Lemma at_diff (s : list cell) (k : nat) :
  1 <= k -> k < List.length s ->
  at_ (diff s) k = (at_ s k - at_ s (k - 1))%cell.
Proof.
  intros H1 Hk. destruct s as [|x s]; [simpl in Hk; lia|].
  destruct k as [|k]; [lia|]. simpl in Hk.
  unfold diff. change (at_ (NaN :: diff_from x s) (S k))
    with (at_ (diff_from x s) k).
  rewrite at_diff_from by lia.
  change (at_ (x :: s) (S k)) with (at_ s k).
  simpl. rewrite Nat.sub_0_r.
  destruct k as [|k]; simpl; [reflexivity|]. now rewrite Nat.sub_0_r.
Qed.

Lemma at_diff_0 (s : list cell) : at_ (diff s) 0 = NaN.
Proof. destruct s; reflexivity. Qed.

(** Gains and losses of a rising sanitized table, row by row. *)
Lemma rising_gain_loss (data : DataFrame) (k : nat) :
  sanitized data -> strictly_rising data -> k < List.length data ->
  exists g l,
    at_ (RSI_gain data) k = Fin g /\ at_ (RSI_loss data) k = Fin l
    /\ (0 <= g)%Q /\ (1 <= k -> (0 < g)%Q) /\ (l == 0)%Q.
Proof.
  intros Hs Hr Hk. unfold RSI_gain, RSI_loss, where_, RSI_delta.
  rewrite !at_map
    by (rewrite ?length_map, diff_length, column_length; exact Hk).
  destruct k as [|k].
  - rewrite at_diff_0. exists (inject_Z 0), (- inject_Z 0)%Q.
    repeat split; try reflexivity; try (intro; lia); try discriminate.
  - rewrite at_diff by (rewrite ?column_length; lia).
    rewrite !at_close by (try exact Hs; lia).
    replace (S k - 1) with k by lia.
    assert (Hlt : (close_q data k < close_q data (S k))%Q)
      by (apply rising_lt; try assumption; lia).
    set (d := (close_q data (S k) + - close_q data k)%Q).
    change (Fin (close_q data (S k)) - Fin (close_q data k))%cell
      with (Fin d).
    assert (Hd : (0 < d)%Q) by (unfold d; lra).
    unfold Cell.gtb. simpl.
    replace (Qltb (inject_Z 0) d) with true
      by (symmetry; apply Qltb_lt; exact Hd).
    replace (Qltb d (inject_Z 0)) with false.
    + exists d, (- inject_Z 0)%Q.
      repeat split; try reflexivity; try lra.
    + symmetry. destruct (Qltb d (inject_Z 0)) eqn:E; [|reflexivity].
      apply Qltb_lt in E. change (inject_Z 0) with 0%Q in E. lra.
Qed.

Lemma fin_window (w : nat) (s : list cell) (i : nat) :
  Forall (fun c => is_fin c = true) s -> i < List.length s ->
  window_at w s i
  = map Fin (map (fun k => to_Q (at_ s k)) (range (i + 1 - w) (i + 1))).
Proof.
  intros Hs Hi.
  rewrite (Forall_map_to_Q (window_at_Forall w i Hs)).
  rewrite window_at_seq by exact Hi.
  f_equal. now rewrite map_map.
Qed.

(** A rolling mean over a column of numbers, from position [w-1] on. *)
Lemma at_rolling_mean_fin (w : nat) (s : list cell) (i : nat) :
  Forall (fun c => is_fin c = true) s -> 0 < w -> w <= i + 1 ->
  i < List.length s ->
  exists m, at_ (rolling_mean w s) i = Fin m
    /\ (m == Qsum (map (fun k => to_Q (at_ s k)) (range (i + 1 - w) (i + 1)))
            / inject_Z (Z.of_nat w))%Q.
Proof.
  intros Hs Hw Hi Hn. unfold rolling_mean.
  rewrite at_rolling_notna by (try apply is_fin_notna; assumption).
  replace (i + 1 <? w) with false by (symmetry; apply Nat.ltb_ge; lia).
  rewrite fin_window by assumption.
  rewrite mean_Fin by (rewrite length_map, range_length; lia).
  eexists. split; [reflexivity|].
  rewrite length_map, range_length, fold_left_Qplus.
  replace (i + 1 - (i + 1 - w)) with w by lia.
  field. intro H0. pose proof (of_nat_pos Hw). lra.
Qed.

Lemma Qsum_nonneg (f : nat -> Q) (l : list nat) :
  (forall k, In k l -> (0 <= f k)%Q) -> (0 <= Qsum (map f l))%Q.
Proof.
  induction l as [|x l IH]; intro H; simpl; [lra|].
  assert (0 <= f x)%Q by (apply H; now left).
  assert (0 <= Qsum (map f l))%Q by (apply IH; intros k Hk; apply H; now right).
  lra.
Qed.

Lemma Qsum_pos (f : nat -> Q) (l : list nat) (j : nat) :
  (forall k, In k l -> (0 <= f k)%Q) -> In j l -> (0 < f j)%Q ->
  (0 < Qsum (map f l))%Q.
Proof.
  induction l as [|x l IH]; intros H Hj Hp; simpl; [contradiction|].
  assert (Hl : (0 <= Qsum (map f l))%Q)
    by (apply Qsum_nonneg; intros k Hk; apply H; now right).
  destruct Hj as [-> | Hj].
  - lra.
  - assert (0 <= f x)%Q by (apply H; now left).
    assert (0 < Qsum (map f l))%Q
      by (apply IH; try assumption; intros k Hk; apply H; now right).
    lra.
Qed.

Lemma Qsum_zero (f : nat -> Q) (l : list nat) :
  (forall k, In k l -> (f k == 0)%Q) -> (Qsum (map f l) == 0)%Q.
Proof.
  induction l as [|x l IH]; intro H; simpl; [reflexivity|].
  rewrite (H x) by now left.
  rewrite IH by (intros k Hk; apply H; now right). ring.
Qed.

Lemma Forall_is_fin_at (s : list cell) :
  (forall k, k < List.length s -> exists q, at_ s k = Fin q) ->
  Forall (fun c => is_fin c = true) s.
Proof.
  intro H. apply Forall_forall. intros c Hc.
  destruct (In_nth _ _ NaN Hc) as (k & Hk & <-).
  destruct (H k Hk) as [q Hq]. unfold at_ in Hq. now rewrite Hq.
Qed.

(** On a rising sanitized table the RSI is 100 from row 13 on. *)
Lemma rising_RSI (data : DataFrame) (i : nat) :
  sanitized data -> strictly_rising data ->
  13 <= i -> i < List.length data ->
  at_ (RSI data) i = Fin (inject_Z 100 + - 0)%Q.
Proof.
  intros Hs Hr H13 Hi.
  assert (Fg : Forall (fun c => is_fin c = true) (RSI_gain data)).
  { apply Forall_is_fin_at. intros k Hk. rewrite RSI_gain_length in Hk.
    destruct (rising_gain_loss Hs Hr Hk) as (g & l & Hg & _). eauto. }
  assert (Fl : Forall (fun c => is_fin c = true) (RSI_loss data)).
  { apply Forall_is_fin_at. intros k Hk. rewrite RSI_loss_length in Hk.
    destruct (rising_gain_loss Hs Hr Hk) as (g & l & _ & Hl & _). eauto. }
  destruct (@at_rolling_mean_fin 14 (RSI_gain data) i Fg)
    as (mg & Hmg & Emg); try lia; [now rewrite RSI_gain_length|].
  destruct (@at_rolling_mean_fin 14 (RSI_loss data) i Fl)
    as (ml & Hml & Eml); try lia; [now rewrite RSI_loss_length|].
  assert (Hpos : (0 < mg)%Q).
  { rewrite Emg. apply Qlt_shift_div_l; [reflexivity|].
    rewrite Qmult_0_l.
    apply Qsum_pos with (j := i).
    - intros k Hk. apply in_range in Hk.
      destruct (@rising_gain_loss data k Hs Hr) as (g & l & Hg & _ & H0 & _);
        [lia|]. rewrite Hg. exact H0.
    - apply in_range. lia.
    - destruct (@rising_gain_loss data i Hs Hr Hi)
        as (g & l & Hg & _ & _ & Hp & _).
      rewrite Hg. apply Hp. lia. }
  assert (Hzero : (ml == 0)%Q).
  { rewrite Eml, Qsum_zero; [reflexivity|].
    intros k Hk. apply in_range in Hk.
    destruct (@rising_gain_loss data k Hs Hr) as (g & l & _ & Hl & _ & _ & Hz);
      [lia|]. rewrite Hl. exact Hz. }
  rewrite at_RSI by exact Hi.
  unfold avg_gain, avg_loss. rewrite Hmg, Hml.
  simpl. rewrite (Qsgn_zero Hzero), (Qsgn_pos Hpos). reflexivity.
Qed.

Lemma latest_rsi_of_last (s : list cell) (v : cell) :
  iloc_last s = Some v -> isna v = false -> latest_rsi_of s = v.
Proof.
  intros Hl Hv.
  assert (Hne : s <> []) by (intro E; subst; discriminate).
  destruct (exists_last Hne) as (pre & x & ->).
  rewrite iloc_last_snoc in Hl. injection Hl as ->.
  unfold latest_rsi_of, dropna_series. rewrite filter_app. simpl.
  unfold notna at 2 4. rewrite Hv. simpl.
  rewrite iloc_last_snoc.
  destruct (filter notna pre ++ [v]) eqn:E; [|reflexivity].
  destruct (filter notna pre); discriminate.
Qed.

Lemma range_split (a b c : nat) :
  a <= b -> b <= c -> range a c = range a b ++ range b c.
Proof.
  intros Hab Hbc. unfold range.
  replace (c - a) with ((b - a) + (c - b)) by lia.
  rewrite seq_app. do 2 f_equal. lia.
Qed.

Lemma Qsum_app (xs ys : list Q) : (Qsum (xs ++ ys) == Qsum xs + Qsum ys)%Q.
Proof.
  induction xs as [|x xs IH]; simpl; [ring|]. rewrite IH. ring.
Qed.

Lemma Qsum_le_const (f : nat -> Q) (l : list nat) (t : Q) :
  (forall k, In k l -> (f k <= t)%Q) ->
  (Qsum (map f l) <= inject_Z (Z.of_nat (List.length l)) * t)%Q.
Proof.
  induction l as [|x l IH]; intro H.
  - simpl. change (inject_Z 0) with 0%Q. lra.
  - assert (H1 : (f x <= t)%Q) by (apply H; now left).
    assert (H2 : (Qsum (map f l) <= inject_Z (Z.of_nat (List.length l)) * t)%Q)
      by (apply IH; intros k Hk; apply H; now right).
    change (List.length (x :: l)) with (S (List.length l)).
    rewrite Nat2Z.inj_succ, <- Z.add_1_r, inject_Z_plus.
    change (inject_Z 1) with 1%Q. simpl Qsum. simpl map. simpl Qsum. lra.
Qed.

Lemma Qsum_ge_const (f : nat -> Q) (l : list nat) (t : Q) :
  (forall k, In k l -> (t <= f k)%Q) ->
  (inject_Z (Z.of_nat (List.length l)) * t <= Qsum (map f l))%Q.
Proof.
  induction l as [|x l IH]; intro H.
  - simpl. change (inject_Z 0) with 0%Q. lra.
  - assert (H1 : (t <= f x)%Q) by (apply H; now left).
    assert (H2 : (inject_Z (Z.of_nat (List.length l)) * t <= Qsum (map f l))%Q)
      by (apply IH; intros k Hk; apply H; now right).
    change (List.length (x :: l)) with (S (List.length l)).
    rewrite Nat2Z.inj_succ, <- Z.add_1_r, inject_Z_plus.
    change (inject_Z 1) with 1%Q. simpl map. simpl Qsum. lra.
Qed.

Lemma rising_le (data : DataFrame) (j k : nat) :
  strictly_rising data -> j <= k -> k < List.length data ->
  (close_q data j <= close_q data k)%Q.
Proof.
  intros Hr Hjk Hk. destruct (Nat.eq_dec j k) as [-> | Hne]; [lra|].
  apply Qlt_le_weak, rising_lt; try assumption. lia.
Qed.

(** On a rising sanitized table of at least 50 rows the latest SMA20 is
    above the latest SMA50. *)
Lemma rising_sma_diff (data : DataFrame) :
  sanitized data -> strictly_rising data -> 50 <= List.length data ->
  exists m20 m50,
    iloc_last (SMA20 data) = Some (Fin m20)
    /\ iloc_last (SMA50 data) = Some (Fin m50)
    /\ (m50 < m20)%Q.
Proof.
  intros Hs Hr Hn. set (n := List.length data) in *.
  destruct (@at_rolling_mean_close data 20 (n - 1) Hs)
    as [[Hlt _] | [_ (m20 & H20 & E20)]]; try (fold n; lia).
  destruct (@at_rolling_mean_close data 50 (n - 1) Hs)
    as [[Hlt _] | [_ (m50 & H50 & E50)]]; try (fold n; lia).
  exists m20, m50.
  split.
  { rewrite iloc_last_at
      by (apply nonempty_length; rewrite SMA20_length; fold n; lia).
    rewrite SMA20_length. fold n. unfold SMA20. now rewrite H20. }
  split.
  { unfold SMA50, rolling_mean.
    rewrite iloc_last_at
      by (apply nonempty_length; rewrite rolling_length, column_length;
          fold n; lia).
    rewrite rolling_length, column_length. fold n.
    unfold rolling_mean in H50. now rewrite H50. }
  unfold close_mean in E20, E50.
  replace (n - 1 + 1) with n in * by lia.
  replace (n - (n - 20)) with 20 in E20 by lia.
  replace (n - (n - 50)) with 50 in E50 by lia.
  rewrite (@range_split (n - 50) (n - 20) n) in E50 by lia.
  rewrite map_app, Qsum_app in E50.
  set (A := Qsum (map (close_q data) (range (n - 50) (n - 20)))) in *.
  set (B := Qsum (map (close_q data) (range (n - 20) n))) in *.
  assert (HA : (A <= 30 * close_q data (n - 21))%Q).
  { unfold A.
    eapply Qle_trans; [apply Qsum_le_const with (t := close_q data (n - 21))|].
    - intros k Hk. apply in_range in Hk. apply rising_le; try assumption;
        fold n; lia.
    - rewrite range_length. replace (n - 20 - (n - 50)) with 30 by lia.
      change (inject_Z (Z.of_nat 30)) with 30%Q. lra. }
  assert (HB : (20 * close_q data (n - 20) <= B)%Q).
  { unfold B.
    eapply Qle_trans; [|apply Qsum_ge_const with (t := close_q data (n - 20))].
    - rewrite range_length. replace (n - (n - 20)) with 20 by lia.
      change (inject_Z (Z.of_nat 20)) with 20%Q. lra.
    - intros k Hk. apply in_range in Hk. apply rising_le; try assumption;
        fold n; lia. }
  assert (Hstep : (close_q data (n - 21) < close_q data (n - 20))%Q)
    by (apply rising_lt; try assumption; fold n; lia).
  change (inject_Z (Z.of_nat 20)) with 20%Q in E20.
  change (inject_Z (Z.of_nat 50)) with 50%Q in E50.
  rewrite E20, E50. 
  apply Qlt_shift_div_r; [reflexivity|].
  assert (E : (B / 20 * 50 == B * (5 # 2))%Q) by field.
  eapply Qlt_le_trans; [|apply Qle_lteq; right; symmetry; exact E]. lra.
Qed.

Lemma strictly_rising_forallb (data : DataFrame) :
  forallb (fun k => Qltb (close_q data k) (close_q data (k + 1)))
          (seq 0 (List.length data - 1)) = true ->
  strictly_rising data.
Proof.
  intros H k Hk. apply Qltb_lt.
  apply (proj1 (forallb_forall _ _) H). apply in_seq. lia.
Qed.

(** X20: on a sanitized table of at least 50 rows whose close rises every
    day, the RSI used is 100 and SMA20 is above SMA50: the score is 2 and
    the meter says Hold, the long-term signal is Exit (RSI above 80), and the
    short-term signal is the bullish crossover when the 7-day return exceeds
    1 percent and Sell otherwise. *)
Theorem verdicts_on_steadily_rising_market (data : DataFrame) :
  sanitized data -> strictly_rising data -> 50 <= List.length data ->
  (exists q, latest_rsi data = Fin q /\ (q == 100)%Q)
  /\ (exists d, sma_diff data = Fin d /\ (0 < d)%Q)
  /\ score data = 2 /\ meter data = Hold
  /\ long_term_signal data = Some ExitSignal
  /\ exists r7,
       return_7d data = Some r7
       /\ short_term_signal data
          = Some (if (r7 >? of_Z 1)%cell then BuyBullishCrossover
                  else SellSignal).
Proof.
  intros Hs Hr Hn.
  assert (Hrsi : latest_rsi data = Fin (inject_Z 100 + - 0)%Q).
  { unfold latest_rsi. apply latest_rsi_of_last; [|reflexivity].
    rewrite iloc_last_at
      by (apply nonempty_length; rewrite RSI_length; lia).
    rewrite RSI_length, rising_RSI by (try assumption; lia).
    reflexivity. }
  destruct (rising_sma_diff Hs Hr Hn) as (m20 & m50 & H20 & H50 & Hlt).
  assert (Hd : sma_diff data = Fin (m20 + - m50)%Q)
    by (unfold sma_diff, sma_diff_of; now rewrite H20, H50).
  assert (Hpos : (Fin (m20 + - m50) >? of_Z 0)%cell = true)
    by (unfold Cell.gtb; simpl; apply Qltb_lt;
        change (inject_Z 0) with 0%Q; lra).
  assert (Hcross : (Fin m20 >? Fin m50)%cell = true)
    by (unfold Cell.gtb; simpl; apply Qltb_lt; exact Hlt).
  assert (Hscore : score data = 2).
  { unfold score, score_of. rewrite Hrsi, Hd, Hpos. reflexivity. }
  destruct (@iloc_last_some (column Close data)) as [c Hc];
    [rewrite column_length; lia|].
  destruct (@latest_percent_some 7 (column Close data)) as [r7 Hr7];
    [rewrite column_length; lia|].
  destruct (@latest_percent_some 30 (column Close data)) as [r30 Hr30];
    [rewrite column_length; lia|].
  split; [exists (inject_Z 100 + - 0)%Q; split; [exact Hrsi|reflexivity]|].
  split; [exists (m20 + - m50)%Q; split; [exact Hd|lra]|].
  split; [exact Hscore|].
  split; [unfold meter; now rewrite Hscore|].
  split.
  - unfold long_term_signal, latest_close, return_30d, Return_30D.
    rewrite Hc, Hr30, H20, H50, Hrsi. simpl.
    unfold get_long_term_signal. rewrite Hcross.
    replace (Fin (inject_Z 100 + - 0) <? of_Z 70)%cell with false
      by reflexivity.
    replace (Fin (inject_Z 100 + - 0) >? of_Z 80)%cell with true
      by reflexivity.
    now rewrite andb_false_r, orb_true_r.
  - exists r7. split; [exact Hr7|].
    unfold short_term_signal, latest_close, return_7d, Return_7D.
    rewrite Hc, Hr7, H20, H50, Hrsi. cbn [bind].
    unfold get_short_term_signal. rewrite Hcross.
    replace (Fin (inject_Z 100 + - 0) <? of_Z 30)%cell with false
      by reflexivity.
    replace (Fin (inject_Z 100 + - 0) >? of_Z 70)%cell with true
      by reflexivity.
    destruct (r7 >? of_Z 1)%cell; reflexivity.
Qed.

Lemma verdicts_on_steadily_rising_market_witness :
  (exists q, latest_rsi sixty_rising = Fin q /\ (q == 100)%Q)
  /\ (exists d, sma_diff sixty_rising = Fin d /\ (0 < d)%Q)
  /\ score sixty_rising = 2 /\ meter sixty_rising = Hold
  /\ long_term_signal sixty_rising = Some ExitSignal
  /\ exists r7,
       return_7d sixty_rising = Some r7
       /\ short_term_signal sixty_rising
          = Some (if (r7 >? of_Z 1)%cell then BuyBullishCrossover
                  else SellSignal).
Proof.
  apply (@verdicts_on_steadily_rising_market sixty_rising).
  - apply sanitized_forallb. vm_compute; reflexivity.
  - apply strictly_rising_forallb. vm_compute; reflexivity.
  - vm_compute. lia.
Defined.

(** ** Column lengths *)

Lemma ewm_from_length (a prev : cell) (s : list cell) :
  List.length (ewm_from a prev s) = List.length s.
Proof.
  revert prev. induction s as [|x s IH]; intro prev; simpl; [reflexivity|].
  now rewrite IH.
Qed.

Lemma ewm_mean_length (span : nat) (s : list cell) :
  List.length (ewm_mean span s) = List.length s.
Proof. destruct s; simpl; [reflexivity|]. now rewrite ewm_from_length. Qed.

Lemma MACD_length (data : DataFrame) :
  List.length (MACD data) = List.length data.
Proof.
  unfold MACD.
  rewrite zip_with_length; rewrite !ewm_mean_length, ?column_length;
    reflexivity.
Qed.

(** X21: every column the script adds to the table has exactly one entry per
    row, whatever the table holds: the two moving averages, the RSI (both
    computations), the three Bollinger columns, the three MACD columns and
    the three return columns. *)
Theorem indicator_columns_have_one_entry_per_row
    (sqrtQ : Q -> Q) (data : DataFrame) :
  Forall (fun col : list cell => List.length col = List.length data)
    [SMA20 data; SMA50 data; RSI data; RSI_np data;
     BB_std sqrtQ data; BB_upper sqrtQ data; BB_lower sqrtQ data;
     MACD data; MACD_signal data; MACD_hist data;
     Daily_Return data; Return_7D data; Return_30D data].
Proof.
  assert (Hstd : List.length (map (Cell.mul c2) (BB_std sqrtQ data))
                 = List.length data)
    by now rewrite length_map, BB_std_length.
  repeat constructor.
  - apply SMA20_length.
  - unfold SMA50, rolling_mean. now rewrite rolling_length, column_length.
  - apply RSI_length.
  - rewrite RSI_np_eq. apply RSI_length.
  - apply BB_std_length.
  - unfold BB_upper. rewrite zip_with_length; rewrite SMA20_length; congruence.
  - unfold BB_lower. rewrite zip_with_length; rewrite SMA20_length; congruence.
  - apply MACD_length.
  - unfold MACD_signal. now rewrite ewm_mean_length, MACD_length.
  - unfold MACD_hist.
    rewrite zip_with_length; unfold MACD_signal;
      rewrite ?ewm_mean_length, MACD_length; reflexivity.
  - unfold Daily_Return. now rewrite pct_change_length, column_length.
  - unfold Return_7D. now rewrite pct_change_length, column_length.
  - unfold Return_30D. now rewrite pct_change_length, column_length.
Qed.

(** ** Bollinger bands around the average *)

(** X22: with a square root that is never negative, on a sanitized table the
    three Bollinger values exist from row 19 on and the 20-day average lies
    between the lower and the upper band; before row 19 all three are
    NaN. *)
Theorem bands_enclose_the_average
    (sqrtQ : Q -> Q) (data : DataFrame) (i : nat) :
  (forall q, (0 <= sqrtQ q)%Q) ->
  sanitized data -> i < List.length data ->
  (i < 19 /\ at_ (SMA20 data) i = NaN
   /\ at_ (BB_upper sqrtQ data) i = NaN /\ at_ (BB_lower sqrtQ data) i = NaN)
  \/ (19 <= i
      /\ exists m u l,
           at_ (SMA20 data) i = Fin m
           /\ at_ (BB_upper sqrtQ data) i = Fin u
           /\ at_ (BB_lower sqrtQ data) i = Fin l
           /\ (l <= m <= u)%Q).
Proof.
  intros Hsqrt Hs Hi.
  assert (EL : List.length (SMA20 data)
               = List.length (map (Cell.mul c2) (BB_std sqrtQ data)))
    by now rewrite length_map, SMA20_length, BB_std_length.
  unfold BB_upper, BB_lower.
  rewrite !at_zip_with by (try exact EL; rewrite SMA20_length; exact Hi).
  destruct (Nat.lt_ge_cases i 19) as [H19 | H19].
  - left. split; [exact H19|].
    assert (E : at_ (SMA20 data) i = NaN)
      by (unfold SMA20, rolling_mean; apply at_rolling_warmup; lia).
    rewrite E. repeat split; reflexivity.
  - right. split; [exact H19|].
    unfold SMA20 at 1 2 3.
    destruct (@at_rolling_mean_close data 20 i Hs)
      as [[Hlt _] | [_ (m & Hm & _)]]; try lia; try assumption.
    destruct (@at_BB_std sqrtQ data i Hs Hi H19) as (v & Hstd & _).
    rewrite at_map by (rewrite BB_std_length; exact Hi).
    rewrite Hm, Hstd.
    exists m, (m + inject_Z 2 * sqrtQ v)%Q, (m + - (inject_Z 2 * sqrtQ v))%Q.
    repeat split; try reflexivity;
      pose proof (Hsqrt v); change (inject_Z 2) with 2%Q; lra.
Qed.

Lemma bands_enclose_the_average_witness :
  (19 < 19 /\ at_ (SMA20 twenty_rising) 19 = NaN
   /\ at_ (BB_upper sqrt_floor twenty_rising) 19 = NaN
   /\ at_ (BB_lower sqrt_floor twenty_rising) 19 = NaN)
  \/ (19 <= 19
      /\ exists m u l,
           at_ (SMA20 twenty_rising) 19 = Fin m
           /\ at_ (BB_upper sqrt_floor twenty_rising) 19 = Fin u
           /\ at_ (BB_lower sqrt_floor twenty_rising) 19 = Fin l
           /\ (l <= m <= u)%Q).
Proof.
  apply (@bands_enclose_the_average sqrt_floor twenty_rising 19).
  - intros [n d]. unfold sqrt_floor, Qle. simpl.
    rewrite Z.mul_1_r. apply Z.sqrt_nonneg.
  - apply sanitized_forallb. vm_compute; reflexivity.
  - vm_compute. lia.
Defined.

(** ** News headlines (lines 331-346) *)

(** [get_news] from the entries of the parsed feed: [None] when there is
    none, the first five otherwise. *)
Definition get_news {A : Type} (entries : list A) : option (list A) :=
  match entries with
  | [] => None
  | _ :: _ => Some (firstn 5 entries)
  end.

(** X23: [get_news] returns [None] exactly for a feed without entries;
    otherwise it returns the leading entries of the feed in their order, at
    least one and at most five (five whenever the feed has that many). *)
Theorem get_news_returns_leading_entries (A : Type) (entries : list A) :
  (get_news entries = None <-> entries = [])
  /\ forall items, get_news entries = Some items ->
       items <> []
       /\ List.length items = Nat.min 5 (List.length entries)
       /\ exists rest, entries = items ++ rest.
Proof.
  split.
  - destruct entries; simpl; split; intro H; try discriminate; reflexivity.
  - intros items H. destruct entries as [|e entries]; [discriminate|].
    unfold get_news in H.
    remember (firstn 5 (e :: entries)) as f eqn:Ef.
    injection H as <-. rewrite Ef.
    split; [simpl; discriminate|].
    split; [apply length_firstn|].
    exists (skipn 5 (e :: entries)). symmetry. apply firstn_skipn.
Qed.

(** ** When the RSI has no value *)

Lemma rsi_nan_iff (mg ml : Q) :
  (0 <= mg)%Q -> (0 <= ml)%Q ->
  (rsi_of_rs (Fin mg / Fin ml) = NaN <-> (mg == 0 /\ ml == 0)%Q).
Proof.
  intros Hg Hl. split.
  - intro H. destruct (Qlt_le_dec 0 ml) as [Hpos | Hle].
    + exfalso.
      assert (Hn : nonneg (Fin mg / Fin ml)%cell)
        by (apply div_nonneg_pos; [exact Hg|exact Hpos]).
      destruct (rsi_of_rs_range _ Hn) as (q & E & _). congruence.
    + assert (Hz : (ml == 0)%Q) by lra.
      split; [|exact Hz].
      destruct (Qlt_le_dec 0 mg) as [Hgp | Hgle]; [exfalso|lra].
      simpl in H. rewrite (Qsgn_zero Hz), (Qsgn_pos Hgp) in H.
      discriminate.
  - intros [Eg El]. simpl. now rewrite (Qsgn_zero El), (Qsgn_zero Eg).
Qed.

Lemma Qsum_zero_iff (f : nat -> Q) (l : list nat) :
  (forall k, In k l -> (0 <= f k)%Q) ->
  ((Qsum (map f l) == 0)%Q <-> forall k, In k l -> (f k == 0)%Q).
Proof.
  intro Hnn. split; [|apply Qsum_zero].
  intros Hz k Hk.
  destruct (Qlt_le_dec 0 (f k)) as [Hp | Hle].
  - pose proof (Qsum_pos f l k Hnn Hk Hp). lra.
  - pose proof (Hnn k Hk). lra.
Qed.

(** Gain and loss of a row of a sanitized table: both are zero exactly at
    row 0 and at a row whose close equals the previous close. *)
Lemma gain_loss_sanitized (data : DataFrame) (k : nat) :
  sanitized data -> k < List.length data ->
  exists g l,
    at_ (RSI_gain data) k = Fin g /\ at_ (RSI_loss data) k = Fin l
    /\ (0 <= g)%Q /\ (0 <= l)%Q
    /\ ((g == 0 /\ l == 0)%Q <->
        k = 0 \/ (close_q data k == close_q data (k - 1))%Q).
Proof.
  intros Hs Hk. unfold RSI_gain, RSI_loss, where_, RSI_delta.
  rewrite !at_map
    by (rewrite ?length_map, diff_length, column_length; exact Hk).
  destruct k as [|k].
  - rewrite at_diff_0. exists (inject_Z 0), (- inject_Z 0)%Q.
    split; [reflexivity|]. split; [reflexivity|].
    split; [discriminate|]. split; [discriminate|].
    split; [intros _; now left|intros _; split; reflexivity].
  - rewrite at_diff by (rewrite ?column_length; lia).
    rewrite !at_close by (try exact Hs; lia).
    replace (S k - 1) with k by lia.
    set (d := (close_q data (S k) + - close_q data k)%Q).
    change (Fin (close_q data (S k)) - Fin (close_q data k))%cell
      with (Fin d).
    unfold Cell.gtb. simpl. change (inject_Z 0) with 0%Q.
    destruct (Qltb 0 d) eqn:E1; destruct (Qltb d 0) eqn:E2.
    + apply Qltb_lt in E1, E2. lra.
    + apply Qltb_lt in E1.
      exists d, (- 0)%Q.
      split; [reflexivity|]. split; [reflexivity|].
      split; [lra|]. split; [lra|].
      split; [intros [H _]; lra|].
      intros [H | H]; [lia|]. unfold d in E1. lra.
    + apply Qltb_lt in E2.
      exists 0%Q, (- d)%Q.
      split; [reflexivity|]. split; [reflexivity|].
      split; [lra|]. split; [lra|].
      split; [intros [_ H]; lra|].
      intros [H | H]; [lia|]. unfold d in E2. lra.
    + assert (Hd : (d == 0)%Q).
      { destruct (Qlt_le_dec 0 d) as [H | H];
          [apply Qltb_lt in H; congruence|].
        destruct (Qlt_le_dec d 0) as [H' | H'];
          [apply Qltb_lt in H'; congruence|]. lra. }
      exists 0%Q, (- 0)%Q.
      split; [reflexivity|]. split; [reflexivity|].
      split; [lra|]. split; [lra|].
      split; [|intros _; split; lra].
      intros _. right. unfold d in Hd. lra.
Qed.

(** X24: on a sanitized table the RSI of a row has no value exactly in two
    cases: the row is one of the first 13, or the close did not change on any
    of the 14 days of its window (rows [i-13 .. i], row 0 counting as
    unchanged). *)
Theorem RSI_undefined_iff_warmup_or_flat (data : DataFrame) (i : nat) :
  sanitized data -> i < List.length data ->
  (at_ (RSI data) i = NaN <->
   i < 13
   \/ forall k, i - 13 <= k <= i -> 1 <= k ->
                (close_q data k == close_q data (k - 1))%Q).
Proof.
  intros Hs Hi.
  destruct (Nat.lt_ge_cases i 13) as [H13 | H13].
  - split; [intros _; now left|intros _].
    rewrite at_RSI by exact Hi.
    unfold avg_gain, rolling_mean. rewrite at_rolling_warmup by lia.
    reflexivity.
  - assert (Fg : Forall (fun c => is_fin c = true) (RSI_gain data)).
    { apply Forall_is_fin_at. intros k Hk. rewrite RSI_gain_length in Hk.
      destruct (gain_loss_sanitized Hs Hk) as (g & l & Hg & _). eauto. }
    assert (Fl : Forall (fun c => is_fin c = true) (RSI_loss data)).
    { apply Forall_is_fin_at. intros k Hk. rewrite RSI_loss_length in Hk.
      destruct (gain_loss_sanitized Hs Hk) as (g & l & _ & Hl & _). eauto. }
    destruct (@at_rolling_mean_fin 14 (RSI_gain data) i Fg)
      as (mg & Hmg & Emg); try lia; [now rewrite RSI_gain_length|].
    destruct (@at_rolling_mean_fin 14 (RSI_loss data) i Fl)
      as (ml & Hml & Eml); try lia; [now rewrite RSI_loss_length|].
    replace (i + 1 - 14) with (i - 13) in * by lia.
    set (gq := fun k => to_Q (at_ (RSI_gain data) k)) in *.
    set (lq := fun k => to_Q (at_ (RSI_loss data) k)) in *.
    assert (Hrow : forall k, In k (range (i - 13) (i + 1)) ->
              (0 <= gq k)%Q /\ (0 <= lq k)%Q
              /\ ((gq k == 0 /\ lq k == 0)%Q <->
                  k = 0 \/ (close_q data k == close_q data (k - 1))%Q)).
    { intros k Hk. apply in_range in Hk.
      destruct (@gain_loss_sanitized data k Hs)
        as (g & l & Hg & Hl & H0g & H0l & Hiff); [lia|].
      unfold gq, lq. rewrite Hg, Hl. simpl. tauto. }
    assert (Gnn : (0 <= Qsum (map gq (range (i - 13) (i + 1))))%Q)
      by (apply Qsum_nonneg; intros k Hk; now apply Hrow).
    assert (Lnn : (0 <= Qsum (map lq (range (i - 13) (i + 1))))%Q)
      by (apply Qsum_nonneg; intros k Hk; now apply Hrow).
    assert (Hmg0 : (0 <= mg)%Q).
    { rewrite Emg. apply Qle_shift_div_l; [reflexivity|lra]. }
    assert (Hml0 : (0 <= ml)%Q).
    { rewrite Eml. apply Qle_shift_div_l; [reflexivity|lra]. }
    assert (Zg : (mg == 0 <-> Qsum (map gq (range (i - 13) (i + 1))) == 0)%Q).
    { rewrite Emg. change (inject_Z (Z.of_nat 14)) with 14%Q.
      split; intro H.
      - assert (E : (Qsum (map gq (range (i - 13) (i + 1)))
                     == Qsum (map gq (range (i - 13) (i + 1))) / 14 * 14)%Q)
          by field.
        rewrite E, H. ring.
      - rewrite H. field. }
    assert (Zl : (ml == 0 <-> Qsum (map lq (range (i - 13) (i + 1))) == 0)%Q).
    { rewrite Eml. change (inject_Z (Z.of_nat 14)) with 14%Q.
      split; intro H.
      - assert (E : (Qsum (map lq (range (i - 13) (i + 1)))
                     == Qsum (map lq (range (i - 13) (i + 1))) / 14 * 14)%Q)
          by field.
        rewrite E, H. ring.
      - rewrite H. field. }
    rewrite at_RSI by exact Hi. unfold avg_gain, avg_loss.
    rewrite Hmg, Hml, (rsi_nan_iff Hmg0 Hml0), Zg, Zl.
    rewrite !Qsum_zero_iff by (intros k Hk; now apply Hrow).
    split.
    + intros [HG HL]. right. intros k Hk H1.
      assert (Hin : In k (range (i - 13) (i + 1))) by (apply in_range; lia).
      destruct (Hrow k Hin) as (_ & _ & Hiff).
      destruct (proj1 Hiff (conj (HG k Hin) (HL k Hin))) as [E | E];
        [lia|exact E].
    + intros [Hlt | Hflat]; [lia|].
      split; intros k Hin; destruct (Hrow k Hin) as (_ & _ & Hiff);
        apply in_range in Hin;
        (destruct (Nat.eq_dec k 0) as [-> | Hne];
         [apply Hiff; now left|apply Hiff; right; apply Hflat; lia]).
Qed.

Lemma RSI_undefined_iff_warmup_or_flat_witness :
  at_ (RSI rise_then_flat) 27 = NaN <->
  27 < 13
  \/ forall k, 27 - 13 <= k <= 27 -> 1 <= k ->
               (close_q rise_then_flat k == close_q rise_then_flat (k - 1))%Q.
Proof.
  apply (@RSI_undefined_iff_warmup_or_flat rise_then_flat 27).
  - apply sanitized_forallb. vm_compute; reflexivity.
  - vm_compute. lia.
Defined.

(** * Bollinger bands in binary64 (lines 275-278) *)

(** The columns of the table hold IEEE binary64 numbers.  This part runs the
    Bollinger lines on the binary64 numbers themselves, every operation
    rounded as the hardware rounds it, to compare the stored band values
    with the identity that holds on exact rationals. *)

From Stdlib Require Floats.PrimFloat.

Module Binary64.

Import PrimFloat.

Set Warnings "-inexact-float".

Definition at64 (s : list PrimFloat.float) (i : nat) : PrimFloat.float :=
  nth i s PrimFloat.nan.

(** The trailing window, as [window_at]. *)
Definition window64 (w : nat) (s : list PrimFloat.float) (i : nat)
    : list PrimFloat.float :=
  skipn (i + 1 - w) (firstn (i + 1) s).

Definition sum64 (xs : list PrimFloat.float) : PrimFloat.float :=
  fold_left PrimFloat.add xs 0%float.

(** The number of observations of a window, as a float. *)
Definition count64 (xs : list PrimFloat.float) : PrimFloat.float :=
  fold_left (fun n _ => PrimFloat.add n 1%float) xs 0%float.

Definition mean64 (xs : list PrimFloat.float) : PrimFloat.float :=
  (sum64 xs / count64 xs)%float.

(** Sample standard deviation, [ddof=1]. *)
Definition std64 (xs : list PrimFloat.float) : PrimFloat.float :=
  let m := mean64 xs in
  PrimFloat.sqrt
    (sum64 (map (fun x => ((x - m) * (x - m))%float) xs)
     / (count64 xs - 1))%float.

(** [rolling(window=w)] on a column without NaN, which Close is after the
    sanitizer: NaN until the window holds [w] rows. *)
Definition rolling64 (w : nat)
    (agg : list PrimFloat.float -> PrimFloat.float)
    (s : list PrimFloat.float) : list PrimFloat.float :=
  map (fun i =>
         let win := window64 w s i in
         if List.length win <? w then PrimFloat.nan else agg win)
      (seq 0 (List.length s)).

Fixpoint zip64 (f : PrimFloat.float -> PrimFloat.float -> PrimFloat.float)
    (a b : list PrimFloat.float) : list PrimFloat.float :=
  match a, b with
  | x :: a', y :: b' => f x y :: zip64 f a' b'
  | _, _ => []
  end.

Definition SMA20 (close : list PrimFloat.float) : list PrimFloat.float :=
  rolling64 20 mean64 close.

Definition BB_std (close : list PrimFloat.float) : list PrimFloat.float :=
  rolling64 20 std64 close.

Definition BB_upper (close : list PrimFloat.float) : list PrimFloat.float :=
  zip64 PrimFloat.add (SMA20 close)
        (map (PrimFloat.mul 2%float) (BB_std close)).

Definition BB_lower (close : list PrimFloat.float) : list PrimFloat.float :=
  zip64 PrimFloat.sub (SMA20 close)
        (map (PrimFloat.mul 2%float) (BB_std close)).

(** The closes 1, 2, ..., 20 of [twenty_rising].  At row 19 the window sum
    210, the mean 10.5, the squared deviations and the variance 35 are exact
    binary64 numbers; the square root and the two band values are
    rounded. *)
Definition close_1_to_20 : list PrimFloat.float :=
  [1; 2; 3; 4; 5; 6; 7; 8; 9; 10;
   11; 12; 13; 14; 15; 16; 17; 18; 19; 20]%float.

(** C7 (counter-example): on the closes 1..20, at row 19, SMA20 is 10.5 and
    the stored values are BB_std = 5.916079783099616,
    BB_upper = 22.33215956619923 and BB_lower = -1.3321595661992323; the
    width BB_upper - BB_lower is 23.66431913239846 while 4 * BB_std is
    23.664319132398465: as binary64 numbers the two sides differ. *)
Lemma bollinger_width_rounds_in_binary64 :
  at64 (SMA20 close_1_to_20) 19 = 10.5%float
  /\ at64 (BB_std close_1_to_20) 19 = 5.916079783099616%float
  /\ at64 (BB_upper close_1_to_20) 19 = 22.33215956619923%float
  /\ at64 (BB_lower close_1_to_20) 19 = (-1.3321595661992323)%float
  /\ (at64 (BB_upper close_1_to_20) 19 - at64 (BB_lower close_1_to_20) 19
      = 23.66431913239846)%float
  /\ (4 * at64 (BB_std close_1_to_20) 19 = 23.664319132398465)%float
  /\ PrimFloat.eqb
       (at64 (BB_upper close_1_to_20) 19 - at64 (BB_lower close_1_to_20) 19)
       (4 * at64 (BB_std close_1_to_20) 19) = false.
Proof. repeat split; vm_compute; reflexivity. Qed.

End Binary64.
